(** * restlog: the local buffer-and-flush engine of [src/index.js]

    A shallow embedding of the [RestLog] class: the file-name pattern and
    [dateFormat], the record built by [middleware_koa], the flush decision
    [checkStatus], the upload loop [local2Remote] and the trigger [submit],
    followed by the properties of the specification that they decide. *)

From Stdlib Require Import ZArith List String Ascii Bool Lia DecimalString.
From Stdlib Require DecimalPos DecimalZ.
Import ListNotations.
Open Scope string_scope.
Open Scope Z_scope.

(** ** Regular expressions

    The only regular expression of the source is the file-name pattern of
    [local2Remote].  It is anchored at both ends, so [String.prototype.match]
    finds a match exactly when the whole name belongs to the language of the
    pattern.  Membership is decided with derivatives. *)

Module Regex.

Inductive re : Type :=
| Void : re
| Eps : re
| Class (p : ascii -> bool) : re
| Seq (r1 r2 : re) : re
| Alt (r1 r2 : re) : re.

Fixpoint nullable (r : re) : bool :=
  match r with
  | Void => false
  | Eps => true
  | Class _ => false
  | Seq r1 r2 => nullable r1 && nullable r2
  | Alt r1 r2 => nullable r1 || nullable r2
  end.

Fixpoint deriv (c : ascii) (r : re) : re :=
  match r with
  | Void => Void
  | Eps => Void
  | Class p => if p c then Eps else Void
  | Seq r1 r2 =>
      if nullable r1 then Alt (Seq (deriv c r1) r2) (deriv c r2)
      else Seq (deriv c r1) r2
  | Alt r1 r2 => Alt (deriv c r1) (deriv c r2)
  end.

Fixpoint matches (r : re) (s : string) : bool :=
  match s with
  | EmptyString => nullable r
  | String c s' => matches (deriv c r) s'
  end.

(** Character classes. *)
Definition code (c : ascii) : N := N_of_ascii c.

Definition range (lo hi : ascii) : re :=
  Class (fun c => (code lo <=? code c)%N && (code c <=? code hi)%N).

Definition chr (a : ascii) : re := Class (fun c => (code c =? code a)%N).

(** [\d] *)
Definition digit : re := range "0" "9".

(** [.] without the [s] flag: any character but a line terminator. *)
Definition dot : re :=
  Class (fun c => negb ((code c =? 10)%N || (code c =? 13)%N)).

(** A letter under the [i] flag: either case. *)
Definition chr_i (lower upper : ascii) : re :=
  Class (fun c => (code c =? code lower)%N || (code c =? code upper)%N).

(** [r?] *)
Definition opt (r : re) : re := Alt r Eps.

End Regex.

Import Regex.

(** [\d{4}] *)
Definition year_re : re := Seq digit (Seq digit (Seq digit digit)).

(** [(0?[1-9]|1[0-2])] *)
Definition month_re : re :=
  Alt (Seq (opt (chr "0")) (range "1" "9")) (Seq (chr "1") (range "0" "2")).

(** [(0?[1-9]|[1-2]\d|3[0-1])] *)
Definition day_re : re :=
  Alt (Seq (opt (chr "0")) (range "1" "9"))
      (Alt (Seq (range "1" "2") digit) (Seq (chr "3") (range "0" "1"))).

(** [.log] under the [i] flag; the dot is not escaped in the source. *)
Definition ext_re : re :=
  Seq dot (Seq (chr_i "l" "L") (Seq (chr_i "o" "O") (chr_i "g" "G"))).

(** [/^\d{4}-(0?[1-9]|1[0-2])-(0?[1-9]|[1-2]\d|3[0-1]).log$/ig] *)
Definition fileNamePattern : re :=
  Seq year_re (Seq (chr "-") (Seq month_re (Seq (chr "-") (Seq day_re ext_re)))).

(** [fileName.match(pattern)] is truthy. *)
Definition name_matches (fileName : string) : bool :=
  matches fileNamePattern fileName.

(** ** Dates

    A [Date] is modelled by what the methods used in the source return for
    it: the local calendar fields, the epoch time in milliseconds and the
    ISO rendering that [JSON.stringify] writes. *)

Record Date : Type := mkDate {
  getFullYear : Z;
  getMonth : Z;          (* 0 .. 11 *)
  getDate : Z;           (* 1 .. 31 *)
  getTime : Z;
  toISOString : string
}.

(** The calendar fields of a valid [Date] object. *)
Definition calendar_date (d : Date) : Prop :=
  0 <= getMonth d <= 11 /\ 1 <= getDate d <= 31.

(** [String(n)] for an integer [n]. *)
Definition Z_to_string (z : Z) : string := NilZero.string_of_int (Z.to_int z).

(** [Array.prototype.join] on an array of strings. *)
Definition join (sep : string) (l : list string) : string := String.concat sep l.

(** [dateFormat]; [None] stands for an argument that is not a [Date]. *)
Definition dateFormat (date : option Date) : string :=
  match date with
  | None => ""
  | Some d =>
      join "-" [Z_to_string (getFullYear d);
                Z_to_string (getMonth d + 1);
                Z_to_string (getDate d)]
  end.

(** The name of the buffer file that [saveLocal] appends to on [d]. *)
Definition logFileName (d : Date) : string := dateFormat (Some d) ++ ".log".

(** ** Values

    The JavaScript values that flow through the engine: request and response
    bodies, the fields of a record and what [JSON.parse] returns.  Numbers
    are the integers; an object is the list of its own properties in
    insertion order. *)

#[warnings="-register-all"] Inductive value : Type :=
| VNull : value
| VBool (b : bool) : value
| VNum (z : Z) : value
| VStr (s : string) : value
| VDate (d : Date) : value
| VArr (l : list value) : value
| VObj (props : list (string * value)) : value.

Definition obj : Type := list (string * value).

(** ToBoolean. *)
Definition truthy (v : value) : bool :=
  match v with
  | VNull => false
  | VBool b => b
  | VNum z => negb (z =? 0)
  | VStr s => negb (String.eqb s "")
  | VDate _ | VArr _ | VObj _ => true
  end.

(** [x || {}] for a possibly undefined [x]. *)
Definition or_empty_object (x : option value) : value :=
  match x with
  | Some v => if truthy v then v else VObj []
  | None => VObj []
  end.

(** [x || null] for a possibly undefined [x]. *)
Definition or_null (x : option value) : value :=
  match x with
  | Some v => if truthy v then v else VNull
  | None => VNull
  end.

(** [o.hasOwnProperty(key)] *)
Definition hasOwnProperty (o : obj) (key : string) : bool :=
  existsb (fun kv => String.eqb (fst kv) key) o.

(** [o[key]] *)
Fixpoint get (o : obj) (key : string) : option value :=
  match o with
  | [] => None
  | (k, v) :: rest => if String.eqb k key then Some v else get rest key
  end.

(** [o[key] = v]: an existing property keeps its place, a new one goes last. *)
Fixpoint set (o : obj) (key : string) (v : value) : obj :=
  match o with
  | [] => [(key, v)]
  | (k, w) :: rest =>
      if String.eqb k key then (k, v) :: rest else (k, w) :: set rest key v
  end.

(** [Object.assign(target, source)] *)
Definition assign (target source : obj) : obj :=
  fold_left (fun o kv => set o (fst kv) (snd kv)) source target.

(** *** [JSON.stringify] *)

Definition quote_char : ascii := ascii_of_N 34.
Definition backslash : ascii := ascii_of_N 92.

Definition hex_digit (n : N) : ascii :=
  if (n <? 10)%N then ascii_of_N (48 + n) else ascii_of_N (87 + n).

Definition escape_char (c : ascii) : string :=
  let n := code c in
  if (n =? 34)%N then String backslash (String quote_char "")
  else if (n =? 92)%N then String backslash (String backslash "")
  else if (n =? 8)%N then String backslash "b"
  else if (n =? 9)%N then String backslash "t"
  else if (n =? 10)%N then String backslash "n"
  else if (n =? 12)%N then String backslash "f"
  else if (n =? 13)%N then String backslash "r"
  else if (n <? 32)%N then
    String backslash
      ("u00" ++ String (hex_digit (n / 16)) (String (hex_digit (n mod 16)) ""))
  else String c "".

Fixpoint escape (s : string) : string :=
  match s with
  | EmptyString => ""
  | String c s' => escape_char c ++ escape s'
  end.

Definition quote (s : string) : string :=
  String quote_char (escape s ++ String quote_char "").

Fixpoint JSON_stringify (v : value) : string :=
  match v with
  | VNull => "null"
  | VBool true => "true"
  | VBool false => "false"
  | VNum z => Z_to_string z
  | VStr s => quote s
  | VDate d => quote (toISOString d)
  | VArr l => "[" ++ join "," (map JSON_stringify l) ++ "]"
  | VObj props =>
      "{" ++ join ","
               (map (fun kv => match kv with
                               | (k, w) => quote k ++ ":" ++ JSON_stringify w
                               end) props)
          ++ "}"
  end.

(** [s.length] *)
Definition length (s : string) : Z := Z.of_nat (String.length s).

(** [s.toLowerCase()] *)
Definition lower_char (c : ascii) : ascii :=
  let n := code c in
  if (65 <=? n)%N && (n <=? 90)%N then ascii_of_N (n + 32) else c.

Fixpoint toLowerCase (s : string) : string :=
  match s with
  | EmptyString => ""
  | String c s' => String (lower_char c) (toLowerCase s')
  end.

(** ** The engine instance and the request context *)

(** The Koa context, as far as the middleware reads it. *)
Record Ctx : Type := mkCtx {
  url : string;
  method : string;
  ip : string;
  request_body : option value;     (* ctx.request.body *)
  user_agent : option string;      (* ctx.headers['user-agent'] *)
  body : option value;             (* ctx.body *)
  status : Z                       (* ctx.status *)
}.

(** What the downstream handler threw: a falsy value, or an error with its
    [status] property when it has one. *)
Inductive thrown : Type :=
| Falsy : thrown
| Err (err_status : option Z) : thrown.

(** [if (err)] *)
Definition caught (err : option thrown) : bool :=
  match err with
  | Some (Err _) => true
  | Some Falsy | None => false
  end.

(** [await next()]: the handler may change the context, and returns or
    throws. *)
Definition handler : Type := Ctx -> Ctx * option thrown.

(** The fields of [this] set by the constructor. *)
Record RestLog : Type := mkRestLog {
  getUserId : Ctx -> option value;
  getResource : Ctx -> option value;
  localPath : string;
  filter : option (string -> string -> bool);
  bodySizeLimit : Z;
  strictObj : obj;
  filesLimit : Z;
  fileSizeLimit : Z;
  fileExpireTime : Z;
  intervalTime : Z
}.

(** ** [middleware_koa], up to the call of [submit] (lines 120-184) *)

(** Lines 130-133 and 161-164. *)
Definition limit_body (self : RestLog) (b : option value) : value :=
  let b' := or_empty_object b in
  if bodySizeLimit self <=? length (JSON_stringify b') then VObj [] else b'.

(** [err.status || 500] *)
Definition error_status (e : thrown) : Z :=
  match e with
  | Err (Some s) => if s =? 0 then 500 else s
  | _ => 500
  end.

(** [err ? (err.status || 500) : (ctx.status || 404)] *)
Definition statusCode (err : option thrown) (ctx : Ctx) : Z :=
  match err with
  | Some (Err s) => error_status (Err s)
  | _ => if status ctx =? 0 then 404 else status ctx
  end.

(** The [for ... in this.strictObj] loop: [true] when it reaches [return]. *)
Fixpoint strict_rejects (strict : obj) (optData : obj) : bool :=
  match strict with
  | [] => false
  | (key, strictItem) :: rest =>
      match strictItem with
      | VBool true =>
          if negb (hasOwnProperty optData key) then true
          else strict_rejects rest optData
      | _ => strict_rejects rest optData
      end
  end.

(** How the middleware leaves line 184. *)
Inductive decision : Type :=
| NotLogged (err : option thrown)         (* line 127: [return next()] *)
| Dropped (err : option thrown)           (* line 182: [return] *)
| Submit (optData : obj) (err : option thrown).   (* line 187 *)

(** The record after the first [Object.assign] (lines 138-150). *)
Definition optData_at_start (self : RestLog) (now : Date) (ctx : Ctx) : obj :=
  let method' := toLowerCase (method ctx) in
  let reqBody := limit_body self (request_body ctx) in
  let resource := or_null (getResource self ctx) in
  assign []
    [("resource", resource);
     ("operation", VStr method');
     ("ip", VStr (ip ctx));
     ("status", VNum 0);
     ("createdAt", VDate now);
     ("originRequest",
      VObj [("url", VStr (url ctx));
            ("method", VStr method');
            ("userAgent",
             VStr (match user_agent ctx with
                   | Some ua => if String.eqb ua "" then "unknown" else ua
                   | None => "unknown"
                   end));
            ("body", reqBody)])].

(** Lines 120-184: the filter, the two body limits, the resolvers, the
    downstream handler and the strict check.  [now] is the [new Date()] of
    line 143.  Each body is the value measured at line 131 or 162; the
    source holds the request body by reference, and [written_record] gives
    the record as it is serialized after the handler has run. *)
Definition middleware_record (self : RestLog) (now : Date) (ctx : Ctx)
    (next : handler) : Ctx * decision :=
  let method' := toLowerCase (method ctx) in
  let declined :=
    match filter self with
    | Some f => negb (f (url ctx) method')
    | None => false
    end in
  if declined then let (ctx', err) := next ctx in (ctx', NotLogged err)
  else
    let userId := or_null (getUserId self ctx) in
    let optData := optData_at_start self now ctx in
    let (ctx', err) := next ctx in
    let resBody := limit_body self (body ctx') in
    let userId' :=
      if truthy userId then userId else or_null (getUserId self ctx') in
    let optData' :=
      assign optData
        [("userId", userId');
         ("status", VNum (if caught err then -1 else 1));
         ("originResponse",
          VObj [("statusCode", VNum (statusCode err ctx'));
                ("body", resBody)])] in
    if strict_rejects (strictObj self) optData' then (ctx', Dropped err)
    else (ctx', Submit optData' err).

(** ** The buffer directory, the sink and the environment *)

Record File : Type := mkFile {
  birthtime : Z;            (* status.birthtime.getTime() *)
  size : Z;                 (* status.size *)
  lines : list string       (* what the line reader emits for the file *)
}.

(** The mutable state: the directory [this.localPath] in [readdir] order,
    the traffic with the remote sink, and the two flags that [submit]
    touches. *)
Record State : Type := mkState {
  fs : list (string * File);
  handed : list value;      (* arguments of [dbSaver.push], in call order *)
  stored : list value;      (* those whose push was acknowledged *)
  onSubmitting : bool;      (* this.onSubmitting *)
  submitting : bool         (* this.submitting *)
}.

Inductive exn : Type :=
| IOError (op : string)       (* a file-system call failed *)
| SinkRejected                (* [dbSaver.push] rejected *)
| TypeError                   (* a property was set on a non-object *)
| Downstream (e : thrown).    (* thrown by the downstream handler *)

(** Result of an awaited call: a value, an exception, or a promise that
    never settles. *)
Inductive res (A : Type) : Type :=
| Ok (a : A)
| Throw (e : exn)
| Hang.
Arguments Ok {A} a.
Arguments Throw {A} e.
Arguments Hang {A}.

(** What reaches the reader's listeners and the push promises of one file. *)
Inductive event : Type :=
| Line                          (* the reader emits its next line *)
| Settled (k : nat) (ok : bool) (* the k-th push of the file settles *)
| End                           (* the reader emits [end] *)
| ReadFail.                     (* the reader emits [error] *)

(** Everything the engine does not decide: clocks, failing file-system
    calls, and the order in which reader and sink events arrive. *)
Record Env : Type := mkEnv {
  today : Date;                 (* [new Date] *)
  clock : string -> Z;          (* [new Date().getTime()] read for a file *)
  append_ok : bool;
  readdir_ok : bool;
  stat_ok : string -> bool;
  unlink_ok : string -> bool;
  arrival : string -> list event
}.

Definition M (A : Type) : Type := State -> res A * State.

Definition ret {A} (a : A) : M A := fun st => (Ok a, st).

Definition bind {A B} (m : M A) (k : A -> M B) : M B :=
  fun st =>
    match m st with
    | (Ok a, st') => k a st'
    | (Throw e, st') => (Throw e, st')
    | (Hang, st') => (Hang, st')
    end.

Definition throw {A} (e : exn) : M A := fun st => (Throw e, st).

Notation "x <- m ;; k" := (bind m (fun x => k))
  (at level 61, m at next level, right associativity).

Definition with_fs (st : State) (fs' : list (string * File)) : State :=
  mkState fs' (handed st) (stored st) (onSubmitting st) (submitting st).

Fixpoint find_file (dir : list (string * File)) (name : string) : option File :=
  match dir with
  | [] => None
  | (n, f) :: rest => if String.eqb n name then Some f else find_file rest name
  end.

(** [fs.readdirAsync(this.localPath)] *)
Definition readdir (env : Env) : M (list string) :=
  fun st =>
    if readdir_ok env then (Ok (map fst (fs st)), st)
    else (Throw (IOError "readdir"), st).

(** [fs.statAsync(file)] *)
Definition stat (env : Env) (name : string) : M File :=
  fun st =>
    match find_file (fs st) name with
    | Some f => if stat_ok env name then (Ok f, st)
                else (Throw (IOError "stat"), st)
    | None => (Throw (IOError "stat"), st)
    end.

Fixpoint append_to (dir : list (string * File)) (name line : string)
    (created : Z) : list (string * File) :=
  match dir with
  | [] => [(name, mkFile created (length line + 1) [line])]
  | (n, f) :: rest =>
      if String.eqb n name
      then (n, mkFile (birthtime f) (size f + length line + 1)
                      (lines f ++ [line])) :: rest
      else (n, f) :: append_to rest name line created
  end.

(** [fs.appendFileAsync(file, line + '\n')] *)
Definition appendFile (env : Env) (name line : string) : M unit :=
  fun st =>
    if append_ok env
    then (Ok tt, with_fs st (append_to (fs st) name line (getTime (today env))))
    else (Throw (IOError "appendFile"), st).

Definition remove_file (dir : list (string * File)) (name : string)
    : list (string * File) :=
  List.filter (fun nf => negb (String.eqb (fst nf) name)) dir.

(** [fs.unlinkAsync(file)] *)
Definition unlink (env : Env) (name : string) : M unit :=
  fun st =>
    if unlink_ok env name then (Ok tt, with_fs st (remove_file (fs st) name))
    else (Throw (IOError "unlink"), st).

(** ** [saveLocal] *)
Definition saveLocal (env : Env) (optData : obj) : M unit :=
  let now_data := dateFormat (Some (today env)) in
  appendFile env (now_data ++ ".log") (JSON_stringify (VObj optData)).

(** ** [checkStatus] *)

(** The [for (let fileName of files)] loop of [checkStatus]. *)
Fixpoint checkFiles (self : RestLog) (env : Env) (files : list string)
    : M bool :=
  match files with
  | [] => ret false
  | fileName :: rest =>
      status <- stat env fileName ;;
      if fileSizeLimit self <? size status then ret true
      else
        let outDate := clock env fileName - birthtime status in
        if fileExpireTime self <=? outDate then ret true
        else checkFiles self env rest
  end.

Definition checkStatus (self : RestLog) (env : Env) : M bool :=
  files <- readdir env ;;
  if filesLimit self <? Z.of_nat (List.length files) then ret true
  else checkFiles self env files.

(** ** [local2Remote] *)

Section Engine.

(** [JSON.parse]: [None] when it throws a [SyntaxError]. *)
Variable JSON_parse : string -> option value.

(** [new Date(x)] for the [createdAt] property [x] of a parsed record
    ([None] when the record has none). *)
Variable newDate : option value -> Date.

(** The promise that [local2Remote] awaits for one file: the first call of
    [resolve] or [reject] settles it, later calls do nothing. *)
Inductive promise : Type :=
| Pending
| Resolved
| Rejected (e : exn).

Definition resolve (p : promise) : promise :=
  match p with Pending => Resolved | _ => p end.

Definition reject (e : exn) (p : promise) : promise :=
  match p with Pending => Rejected e | _ => p end.

(** One file being read: the lines not yet emitted, the pushes begun, the
    pushes settled, and the promise. *)
Record reader : Type := mkReader {
  unread : list string;
  pushes : list value;
  settled : list nat;
  acked : list value;
  awaited : promise;
  ended : bool
}.

Definition open_reader (file : option File) : reader :=
  match file with
  | Some f => mkReader (lines f) [] [] [] Pending false
  | None => mkReader [] [] [] [] (Rejected (IOError "read")) true
  end.

(** [obj.createdAt = new Date(obj.createdAt)]; [None] when the assignment
    throws because [obj] is not an object.  An array takes the property
    too, which [value] has no place for: it is handed on as it is. *)
Definition revive (o : value) : option value :=
  match o with
  | VObj props =>
      Some (VObj (set props "createdAt" (VDate (newDate (get props "createdAt")))))
  | VArr l => Some (VArr l)
  | VDate d => Some (VDate d)
  | _ => None
  end.

(** The ['line'] listener (lines 313-330).  A listener that throws is
    reported by the reader through its ['error'] event, whose listener
    rejects. *)
Definition on_line (line : string) (r : reader) : reader :=
  if String.eqb line "" then
    mkReader (unread r) (pushes r) (settled r) (acked r)
             (resolve (awaited r)) (ended r)
  else
    match JSON_parse line with
    | None => r
    | Some o =>
        match revive o with
        | Some o' =>
            mkReader (unread r) (pushes r ++ [o']) (settled r) (acked r)
                     (awaited r) (ended r)
        | None =>
            mkReader (unread r) (pushes r) (settled r) (acked r)
                     (reject TypeError (awaited r)) (ended r)
        end
    end.

(** [.then(resolve).catch(reject)] on the k-th push. *)
Definition on_settled (k : nat) (ok : bool) (r : reader) : reader :=
  match nth_error (pushes r) k with
  | Some o =>
      if existsb (Nat.eqb k) (settled r) then r
      else if ok then
        mkReader (unread r) (pushes r) (k :: settled r) (acked r ++ [o])
                 (resolve (awaited r)) (ended r)
      else
        mkReader (unread r) (pushes r) (k :: settled r) (acked r)
                 (reject SinkRejected (awaited r)) (ended r)
  | None => r
  end.

(** One event reaching the listeners of a file.  Events that cannot occur
    (a line after the last one, [end] before it, a push settling before it
    began or twice) leave the reader as it is. *)
Definition on_event (ev : event) (r : reader) : reader :=
  match ev with
  | Line =>
      match unread r with
      | [] => r
      | line :: rest =>
          on_line line (mkReader rest (pushes r) (settled r) (acked r)
                                 (awaited r) (ended r))
      end
  | Settled k ok => on_settled k ok r
  | End =>
      match unread r with
      | [] =>
          if ended r then r
          else mkReader [] (pushes r) (settled r) (acked r)
                        (resolve (awaited r)) true
      | _ :: _ => r
      end
  | ReadFail =>
      if ended r then r
      else mkReader [] (pushes r) (settled r) (acked r)
                    (reject (IOError "read") (awaited r)) true
  end.

Definition read_file (file : option File) (evs : list event) : reader :=
  fold_left (fun r ev => on_event ev r) evs (open_reader file).

Definition record_traffic (r : reader) (st : State) : State :=
  mkState (fs st) (handed st ++ pushes r) (stored st ++ acked r)
          (onSubmitting st) (submitting st).

(** [await new Promise(...)] of lines 311-337 for one file. *)
Definition upload_file (env : Env) (fileName : string) : M unit :=
  fun st =>
    let r := read_file (find_file (fs st) fileName) (arrival env fileName) in
    let st' := record_traffic r st in
    match awaited r with
    | Resolved => (Ok tt, st')
    | Rejected e => (Throw e, st')
    | Pending => (Hang, st')
    end.

(** The [for (let fileName of files)] loop of [local2Remote]. *)
Fixpoint uploadFiles (env : Env) (files : list string) : M unit :=
  match files with
  | [] => ret tt
  | fileName :: rest =>
      if negb (name_matches fileName) then ret tt
      else
        _ <- upload_file env fileName ;;
        _ <- unlink env fileName ;;
        uploadFiles env rest
  end.

Definition local2Remote (env : Env) : M unit :=
  fun st =>
    match readdir env st with
    | (Ok files, st') => uploadFiles env files st'
    | (_, st') => (Ok tt, st')
    end.

(** The record that the ['line'] listener hands to the sink for a line:
    none for a blank line or one that does not parse. *)
Definition record_of (line : string) : option value :=
  if String.eqb line "" then None
  else match JSON_parse line with
       | Some o => revive o
       | None => None
       end.

Definition records_of (ls : list string) : list value :=
  flat_map (fun line => match record_of line with
                        | Some r => [r]
                        | None => []
                        end) ls.

(** A line that is blank, or does not parse, or parses to an object. *)
Definition line_ok (line : string) : bool :=
  if String.eqb line "" then true
  else match JSON_parse line with
       | Some o => match revive o with Some _ => true | None => false end
       | None => true
       end.

(** An event that is neither a read error nor a rejected push. *)
Definition benign (ev : event) : bool :=
  match ev with
  | ReadFail => false
  | Settled _ false => false
  | _ => true
  end.

(** What stays true of the reader of [f] while only benign events arrive:
    the records handed over and those of the unread lines make up the
    records of the file, and the promise is not rejected. *)
Definition reading (f : File) (r : reader) : Prop :=
  (pushes r ++ records_of (unread r))%list = records_of (lines f) /\
  forallb line_ok (unread r) = true /\
  (awaited r = Pending \/ awaited r = Resolved) /\
  (ended r = true -> unread r = [] /\ awaited r = Resolved).

(** ** [submit]

    The body of [submit] is an async function that is started and not
    awaited.  It is cut at its [await]s. *)
Inductive pc : Type :=
| Start (optData : option obj)   (* called, nothing done yet *)
| Saved                          (* past [await saveLocal] *)
| Checking                       (* flag read as false, awaiting [checkStatus] *)
| Draining                       (* awaiting [local2Remote] *)
| Stuck                          (* awaiting a promise that never settles *)
| Finished.

Definition set_onSubmitting (b : bool) (st : State) : State :=
  mkState (fs st) (handed st) (stored st) b (submitting st).

Definition set_submitting (b : bool) (st : State) : State :=
  mkState (fs st) (handed st) (stored st) (onSubmitting st) b.

(** Leaving the [try] statement, by its end or through [catch], reaches
    [self.onSubmitting = false]. *)
Definition leave_try (st : State) : pc * State :=
  (Finished, set_onSubmitting false st).

Definition step (self : RestLog) (env : Env) (p : pc) (st : State)
    : pc * State :=
  match p with
  | Start None => (Saved, st)
  | Start (Some optData) =>
      match saveLocal env optData st with
      | (Ok _, st') => (Saved, st')
      | (Throw _, st') => leave_try st'
      | (Hang, st') => (Stuck, st')
      end
  | Saved =>
      if onSubmitting st then (Finished, st)     (* [return debug(...)] *)
      else (Checking, st)
  | Checking =>
      match checkStatus self env st with
      | (Ok true, st') => (Draining, set_submitting true st')
      | (Ok false, st') => leave_try st'
      | (Throw _, st') => leave_try st'
      | (Hang, st') => (Stuck, st')
      end
  | Draining =>
      match local2Remote env st with
      | (Ok _, st') => leave_try st'
      | (Throw _, st') => leave_try st'
      | (Hang, st') => (Stuck, st')
      end
  | Stuck => (Stuck, st)
  | Finished => (Finished, st)
  end.

Fixpoint steps (self : RestLog) (env : Env) (n : nat) (p : pc) (st : State)
    : pc * State :=
  match n with
  | O => (p, st)
  | S n' => let (p', st') := step self env p st in steps self env n' p' st'
  end.

(** [submit(optData)] with nothing else running in between: the body runs
    through its four [await]s; the caller gets no result and no error. *)
Definition submit (self : RestLog) (env : Env) (optData : option obj)
    : M unit :=
  fun st => (Ok tt, snd (steps self env 4 (Start optData) st)).

(** Several calls of [submit] in flight: one program point per call. *)
Record system : Type := mkSystem {
  tasks : list pc;
  shared : State
}.

Fixpoint replace_nth {A} (l : list A) (i : nat) (a : A) : list A :=
  match l, i with
  | [], _ => []
  | _ :: rest, O => a :: rest
  | x :: rest, S i' => x :: replace_nth rest i' a
  end.

(** [Call d]: a trigger calls [submit(d)]; [Resume i]: the i-th call gets
    past its current [await]. *)
Inductive action : Type :=
| Call (optData : option obj)
| Resume (i : nat).

Definition act (self : RestLog) (env : Env) (a : action) (sys : system)
    : system :=
  match a with
  | Call d => mkSystem (tasks sys ++ [Start d]) (shared sys)
  | Resume i =>
      match nth_error (tasks sys) i with
      | Some p =>
          let (p', st') := step self env p (shared sys) in
          mkSystem (replace_nth (tasks sys) i p') st'
      | None => sys
      end
  end.

Definition run (self : RestLog) (env : Env) (acts : list action)
    (sys : system) : system :=
  fold_left (fun s a => act self env a s) acts sys.

Definition is_draining (p : pc) : bool :=
  match p with Draining => true | _ => false end.

(** The number of calls of [local2Remote] in progress. *)
Definition active_drains (sys : system) : nat :=
  List.length (List.filter is_draining (tasks sys)).

(** ** [middleware_koa], whole

    [now] is the [new Date()] of line 143; [env] is the environment of the
    buffering and flushing that [submit] starts. *)
Definition middleware_koa (self : RestLog) (env : Env) (now : Date)
    (ctx : Ctx) (next : handler) : M unit :=
  match snd (middleware_record self now ctx next) with
  | NotLogged None => ret tt
  | NotLogged (Some e) => throw (Downstream e)
  | Dropped _ => ret tt
  | Submit optData err =>
      _ <- submit self env (Some optData) ;;
      match err with
      | Some (Err s) => throw (Downstream (Err s))
      | _ => ret tt
      end
  end.

End Engine.

(** ** The constructor *)

Inductive client : Type := Connected.

Record DbSaver : Type := mkDbSaver {
  dbClient : option client;
  collectionName : option string
}.

Record UploadCondition : Type := mkUploadCondition {
  uc_filesLimit : option Z;
  uc_fileSizeLimit : option Z;
  uc_fileExpireTime : option Z;
  uc_intervalTime : option Z
}.

(** The options object; [None] is a property that is not given, and for the
    two resolvers one that is not a function. *)
Record Options : Type := mkOptions {
  opt_getUserId : option (Ctx -> option value);
  opt_getResource : option (Ctx -> option value);
  opt_localPath : option string;
  opt_filter : option (string -> string -> bool);
  opt_dbSaver : option DbSaver;
  opt_strict : option obj;
  opt_uploadCondition : option UploadCondition
}.

Inductive ctor_error : Type :=
| ConfigError (message : string)   (* [throw new Error(message)] *)
| DestructureError                 (* [dbSaver] is undefined *)
| MkdirError.                      (* [mkdirpSync] threw *)

(** [x || d] for a number. *)
Definition or_default (x : option Z) (d : Z) : Z :=
  match x with
  | Some z => if z =? 0 then d else z
  | None => d
  end.

(** [pathJoin(__dirname, '../../data')] *)
Definition default_localPath : string := "data".

(** The constructor; [mkdirp_ok] tells whether [mkdirpSync] succeeds. *)
Definition constructor (opts : Options) (mkdirp_ok : bool)
    : ctor_error + RestLog :=
  match opt_getUserId opts with
  | None => inl (ConfigError "must give a function to get userId")
  | Some getUserId =>
      match opt_getResource opts with
      | None => inl (ConfigError "must give a function to get Resource")
      | Some getResource =>
          match opt_dbSaver opts with
          | None => inl DestructureError
          | Some saver =>
              match dbClient saver with
              | None => inl (ConfigError "no dbClient found")
              | Some _ =>
                  let uc :=
                    match opt_uploadCondition opts with
                    | Some uc => uc
                    | None => mkUploadCondition None None None None
                    end in
                  let localPath :=
                    match opt_localPath opts with
                    | Some path => if String.eqb path "" then default_localPath
                                   else path
                    | None => default_localPath
                    end in
                  if mkdirp_ok then
                    inr (mkRestLog getUserId getResource localPath
                           (opt_filter opts) 2048
                           (match opt_strict opts with
                            | Some strict => strict
                            | None => []
                            end)
                           (or_default (uc_filesLimit uc) 1)
                           (or_default (uc_fileSizeLimit uc) 10 * 1024)
                           (or_default (uc_fileExpireTime uc) 10 * 1000)
                           (or_default (uc_intervalTime uc) 10 * 1000))
                  else inl MkdirError
              end
          end
      end
  end.

(** [true] when both resolvers and the database client are given. *)
Definition collaborators_given (opts : Options) : bool :=
  match opt_getUserId opts, opt_getResource opts, opt_dbSaver opts with
  | Some _, Some _, Some saver =>
      match dbClient saver with Some _ => true | None => false end
  | _, _, _ => false
  end.

(** ** Data for the examples *)

Definition may_5_2017 : Date :=
  mkDate 2017 4 5 1493942400000 "2017-05-05T00:00:00.000Z".

(** The first day of the year 10000, a date that [Date] can hold. *)
Definition new_year_10000 : Date :=
  mkDate 10000 0 1 253402300800000 "+010000-01-01T00:00:00.000Z".

(** A record as [saveLocal] writes it, cut down to four properties. *)
Definition demo_record (who : string) : value :=
  VObj [("userId", VStr who);
        ("operation", VStr "get");
        ("status", VNum 1);
        ("createdAt", VStr (toISOString may_5_2017))].

Definition demo_line (who : string) : string :=
  JSON_stringify (demo_record who).

(** What [dbSaver.push] receives for [demo_line who]. *)
Definition demo_pushed (who : string) : value :=
  VObj [("userId", VStr who);
        ("operation", VStr "get");
        ("status", VNum 1);
        ("createdAt", VDate may_5_2017)].

(** [JSON.parse] on the lines of the examples: the serializations of the
    records for [a], [b] and [c] parse back to them, and the other lines
    used ([{oops] for one) do not parse. *)
Definition demo_parse (line : string) : option value :=
  find (fun v => String.eqb (JSON_stringify v) line)
       [demo_record "a"; demo_record "b"; demo_record "c"].

(** [new Date(x)] on the [createdAt] strings of the examples. *)
Definition demo_newDate (x : option value) : Date := may_5_2017.

Definition file_of (created : Z) (ls : list string) : File :=
  mkFile created (fold_right (fun l n => length l + 1 + n) 0 ls) ls.

(** A minute after the files of the examples were created; nothing fails;
    the events of every file arrive as [evs]. *)
Definition demo_env (evs : list event) : Env :=
  mkEnv may_5_2017 (fun _ => getTime may_5_2017 + 60000)
        true true (fun _ => true) (fun _ => true) (fun _ => evs).

Definition demo_state (dir : list (string * File)) : State :=
  mkState dir [] [] false false.

(** Five milliseconds after the files of the examples were created: no
    file is old enough for a flush. *)
Definition quiet_env : Env :=
  mkEnv may_5_2017 (fun _ => getTime may_5_2017 + 5)
        true true (fun _ => true) (fun _ => true) (fun _ => []).

Definition three_records : File :=
  file_of (getTime may_5_2017) [demo_line "a"; demo_line "b"; demo_line "c"].

Definition three_records_one_malformed : File :=
  file_of (getTime may_5_2017)
          [demo_line "a"; demo_line "b"; "{oops"; demo_line "c"].

(** All three lines are emitted, then the pushes settle in order, the
    second being rejected, then the reader ends. *)
Definition second_push_rejected : list event :=
  [Line; Line; Line; Settled 0 true; Settled 1 false; Settled 2 true; End].

(** The same with each push settling before the next line is emitted. *)
Definition second_push_rejected_in_turn : list event :=
  [Line; Settled 0 true; Line; Settled 1 false; Line; Settled 2 true; End].

Definition all_pushes_accepted : list event :=
  [Line; Line; Line; Line; Settled 0 true; Settled 1 true; Settled 2 true; End].

(** An engine for the examples: both resolvers, a connected client, no
    filter, and the defaults for everything else. *)
Definition demo_options (userId resource : option value) (strict : obj)
    : Options :=
  mkOptions (Some (fun _ => userId)) (Some (fun _ => resource)) None None
            (Some (mkDbSaver (Some Connected) None)) (Some strict) None.

Definition demo_engine (userId resource : option value) (strict : obj)
    : RestLog :=
  mkRestLog (fun _ => userId) (fun _ => resource) default_localPath None 2048
            strict 1 10240 10000 10000.

Fixpoint repeat_char (c : ascii) (n : nat) : string :=
  match n with
  | O => ""
  | S n' => String c (repeat_char c n')
  end.

(** A request body whose serialization is exactly 2048 characters long. *)
Definition body_of_2048 : value :=
  VObj [("a", VStr (repeat_char "x" (Z.to_nat 2040)))].

Definition demo_ctx (reqBody : option value) : Ctx :=
  mkCtx "/things/1" "GET" "::1" reqBody (Some "curl") None 404.

(** A downstream handler that answers 200 with a small body. *)
Definition demo_next : handler :=
  fun ctx =>
    (mkCtx (url ctx) (method ctx) (ip ctx) (request_body ctx) (user_agent ctx)
           (Some (VObj [("ok", VBool true)])) 200,
     None).

(** [optData.originRequest.body] and [optData.originResponse.body] *)
Definition field_of (optData : obj) (outer inner : string) : option value :=
  match get optData outer with
  | Some (VObj props) => get props inner
  | _ => None
  end.

(** A file crosses the size threshold or the age threshold. *)
Definition over_threshold (self : RestLog) (env : Env) (n : string) (f : File)
    : Prop :=
  fileSizeLimit self < size f \/
  fileExpireTime self <= clock env n - birthtime f.

(** Checking a boolean property on an interval of integers by enumeration. *)
Definition Z_range (lo : Z) (n : nat) : list Z :=
  map (fun k => lo + Z.of_nat k) (seq 0 n).

(** ** Notions used to state further properties *)

(** [Object.keys(o)] *)
Definition keys (o : obj) : list string := map fst o.

(** The properties that the two [Object.assign] calls of [middleware_koa]
    give a record, in the order of their first assignment. *)
Definition record_keys : list string :=
  ["resource"; "operation"; "ip"; "status"; "createdAt"; "originRequest";
   "userId"; "originResponse"].

(** The test of line 125: the filter is a function and returns false. *)
Definition filter_declines (self : RestLog) (ctx : Ctx) : bool :=
  match filter self with
  | Some f => negb (f (url ctx) (toLowerCase (method ctx)))
  | None => false
  end.

(** Some entry of the strictness map is [true] under a key that is none of
    the record's. *)
Definition strict_outside (strict : obj) : bool :=
  existsb (fun kv =>
             match snd kv with
             | VBool true =>
                 negb (existsb (fun k => String.eqb k (fst kv)) record_keys)
             | _ => false
             end) strict.

(** What the caller of the middleware gets when nothing is logged. *)
Definition handler_outcome (err : option thrown) : res unit :=
  match err with
  | None => Ok tt
  | Some e => Throw (Downstream e)
  end.

(** The state once [saveLocal] has appended the record of a call, if the
    call has one. *)
Definition after_save (env : Env) (optData : option obj) (st : State) : State :=
  match optData with
  | None => st
  | Some o =>
      with_fs st (append_to (fs st) (dateFormat (Some (today env)) ++ ".log")
                            (JSON_stringify (VObj o)) (getTime (today env)))
  end.

(** [env'] differs from [env] in its clocks only, which are not behind. *)
Definition later (env env' : Env) : Prop :=
  readdir_ok env' = readdir_ok env /\
  (forall n, stat_ok env' n = stat_ok env n) /\
  (forall n, clock env n <= clock env' n).

(** The promise has been resolved or rejected. *)
Definition is_settled (p : promise) : bool :=
  match p with
  | Pending => false
  | _ => true
  end.

(** The records handed over and those of the unread lines are an initial
    part of the records of the file. *)
Definition in_file_order (parse : string -> option value)
    (newDate : option value -> Date) (f : File) (r : reader) : Prop :=
  exists rest,
    records_of parse newDate (lines f)
    = (pushes r ++ records_of parse newDate (unread r) ++ rest)%list.

(** What the bookkeeping of the pushes keeps true: a push settles once, and
    only a push that was begun. *)
Definition acks_sound (r : reader) : Prop :=
  NoDup (settled r) /\
  (forall k, In k (settled r) -> (k < List.length (pushes r))%nat) /\
  (List.length (acked r) <= List.length (settled r))%nat /\
  incl (acked r) (pushes r).

(** Reading a number back from the front of a string: an optional minus
    sign and the digits that follow. *)
Definition is_digit (c : ascii) : bool :=
  (48 <=? code c)%N && (code c <=? 57)%N.

Fixpoint take_digits (s : string) : string * string :=
  match s with
  | EmptyString => ("", "")
  | String c s' =>
      if is_digit c
      then let (a, b) := take_digits s' in (String c a, b)
      else ("", s)
  end.

Definition take_number (s : string) : string * string :=
  match s with
  | EmptyString => ("", "")
  | String c s' =>
      if Ascii.eqb c "-"
      then let (a, b) := take_digits s' in (String c a, b)
      else take_digits s
  end.

Fixpoint all_digits (s : string) : bool :=
  match s with
  | EmptyString => true
  | String c s' => is_digit c && all_digits s'
  end.

(** No character of the string ends a line in the reader. *)
Fixpoint one_line (s : string) : bool :=
  match s with
  | EmptyString => true
  | String c s' =>
      negb ((code c =? 10)%N || (code c =? 13)%N) && one_line s'
  end.

(** ** The [try] statement of [submit] read as a whole *)

(** The [try] block of [submit] (lines 244-261) as one computation: an
    exception of [saveLocal], [checkStatus] or [local2Remote] ends it.  The
    result is [true] when the block is left through the [return] of line
    252. *)
Definition submit_try (parse : string -> option value)
    (newDate : option value -> Date) (self : RestLog) (env : Env)
    (optData : option obj) : M bool :=
  _ <- match optData with
       | Some o => saveLocal env o
       | None => ret tt
       end ;;
  fun st =>
    if onSubmitting st then (Ok true, st)
    else
      (status <- checkStatus self env ;;
       if status
       then _ <- (fun st' =>
                    local2Remote parse newDate env (set_submitting true st')) ;;
            ret false
       else ret false) st.

(** The async function of lines 243-266: [catch] takes whatever the block
    throws, and line 265 runs unless the block returned. *)
Definition submit_async (parse : string -> option value)
    (newDate : option value -> Date) (self : RestLog) (env : Env)
    (optData : option obj) : M unit :=
  fun st =>
    match submit_try parse newDate self env optData st with
    | (Ok true, st') => (Ok tt, st')
    | (Ok false, st') => (Ok tt, set_onSubmitting false st')
    | (Throw _, st') => (Ok tt, set_onSubmitting false st')
    | (Hang, st') => (Hang, st')
    end.

(** An environment in which every call to the file system fails and the
    reader reports an error. *)
Definition failing_env : Env :=
  mkEnv may_5_2017 (fun _ => 0) false false (fun _ => false) (fun _ => false)
        (fun _ => [ReadFail]).

(** ** The bodies as they are written

    [middleware_record] gives each body the value it has when it is
    measured.  The source stores a reference (lines 130 and 148 for the
    request body), and the record is serialized later, at line 278, reached
    from line 187: what is written for an object is its content at that
    time. *)

(** A value that is held by reference. *)
Definition is_object (v : value) : bool :=
  match v with
  | VObj _ | VArr _ | VDate _ => true
  | _ => false
  end.

(** [optData.originRequest.body] when line 278 serializes the record.  If
    [ctx.request.body] is an object that passed the test of line 131, the
    record holds that very object and what is written is its content after
    the handler, [in_place] being what the handler did to the content of
    that object.  A primitive is held by value, and a falsy or oversize body
    was replaced by a fresh [{}] that the handler does not reach. *)
Definition written_request_body (self : RestLog) (ctx : Ctx)
    (in_place : value -> value) : value :=
  match request_body ctx with
  | Some v =>
      if truthy v && is_object v
         && (length (JSON_stringify v) <? bodySizeLimit self)
      then in_place v
      else limit_body self (request_body ctx)
  | None => limit_body self (request_body ctx)
  end.

(** The record as line 278 serializes it. *)
Definition written_record (self : RestLog) (ctx : Ctx)
    (in_place : value -> value) (optData : obj) : obj :=
  match get optData "originRequest" with
  | Some (VObj props) =>
      set optData "originRequest"
          (VObj (set props "body" (written_request_body self ctx in_place)))
  | _ => optData
  end.

(** * Properties *)

(** ** Properties of the matcher *)

Lemma matches_Void : forall s, matches Void s = false.
Proof. induction s; simpl; auto. Qed.

Lemma matches_Alt : forall s r1 r2,
  matches (Alt r1 r2) s = matches r1 s || matches r2 s.
Proof.
  induction s as [|c s IH]; intros r1 r2; simpl.
  - reflexivity.
  - apply IH.
Qed.

Lemma matches_Seq_nullable : forall s r1 r2,
  nullable r1 = true -> matches r2 s = true -> matches (Seq r1 r2) s = true.
Proof.
  intros [|c s] r1 r2 Hn Hm; simpl in *.
  - now rewrite Hn.
  - rewrite Hn, matches_Alt, Hm. apply orb_true_r.
Qed.

Lemma matches_Seq : forall s1 s2 r1 r2,
  matches r1 s1 = true -> matches r2 s2 = true ->
  matches (Seq r1 r2) (s1 ++ s2) = true.
Proof.
  induction s1 as [|c s1 IH]; intros s2 r1 r2 H1 H2; simpl in *.
  - now apply matches_Seq_nullable.
  - destruct (nullable r1).
    + rewrite matches_Alt, (IH s2 _ r2 H1 H2). reflexivity.
    + now apply IH.
Qed.

Lemma forallb_Z_range : forall (f : Z -> bool) lo n,
  forallb f (Z_range lo n) = true ->
  forall z, lo <= z < lo + Z.of_nat n -> f z = true.
Proof.
  intros f lo n H z Hz.
  rewrite forallb_forall in H. apply H.
  unfold Z_range. apply in_map_iff. exists (Z.to_nat (z - lo)). split.
  - lia.
  - apply in_seq. lia.
Qed.

Lemma year_matches : forall y, 1000 <= y <= 9999 ->
  matches year_re (Z_to_string y) = true.
Proof.
  intros y Hy.
  apply (@forallb_Z_range (fun z => matches year_re (Z_to_string z)) 1000 (Z.to_nat 9000)).
  - vm_compute. reflexivity.
  - lia.
Qed.

Lemma month_matches : forall m, 0 <= m <= 11 ->
  matches month_re (Z_to_string (m + 1)) = true.
Proof.
  intros m Hm.
  apply (@forallb_Z_range (fun z => matches month_re (Z_to_string (z + 1))) 0 12).
  - vm_compute. reflexivity.
  - lia.
Qed.

Lemma day_matches : forall d, 1 <= d <= 31 ->
  matches day_re (Z_to_string d) = true.
Proof.
  intros d Hd.
  apply (@forallb_Z_range (fun z => matches day_re (Z_to_string z)) 1 31).
  - vm_compute. reflexivity.
  - lia.
Qed.

Lemma append_assoc : forall s1 s2 s3 : string,
  (s1 ++ s2) ++ s3 = s1 ++ (s2 ++ s3).
Proof.
  induction s1 as [|c s1 IH]; intros s2 s3; simpl.
  - reflexivity.
  - now rewrite IH.
Qed.

Lemma logFileName_shape : forall d,
  logFileName d =
  Z_to_string (getFullYear d) ++ "-" ++ Z_to_string (getMonth d + 1) ++ "-"
    ++ Z_to_string (getDate d) ++ ".log".
Proof.
  intros d. unfold logFileName, dateFormat, join. simpl.
  repeat (rewrite append_assoc; simpl). reflexivity.
Qed.

(** ** The file name of the append path and the pattern of the upload path *)

Lemma logFileName_matches : forall d,
  calendar_date d -> 1000 <= getFullYear d <= 9999 ->
  name_matches (logFileName d) = true.
Proof.
  intros d [Hm Hd] Hy. unfold name_matches, fileNamePattern.
  rewrite logFileName_shape.
  apply matches_Seq; [now apply year_matches|].
  apply (matches_Seq "-"); [reflexivity|].
  apply matches_Seq; [now apply month_matches|].
  apply (matches_Seq "-"); [reflexivity|].
  apply matches_Seq; [now apply day_matches|].
  reflexivity.
Qed.

(** C9, as stated, fails: the name written on a day of the year 10000 has a
    five-digit year and does not match the pattern. *)
Lemma C9_five_digit_year_not_eligible :
  calendar_date new_year_10000 /\
  logFileName new_year_10000 = "10000-1-1.log" /\
  name_matches (logFileName new_year_10000) = false.
Proof.
  split; [unfold calendar_date; simpl; lia|].
  split; vm_compute; reflexivity.
Qed.

(** C9, amended: for every date whose year has four digits (1000 to 9999),
    the name [dateFormat(date) + '.log'] that [saveLocal] appends to matches
    the pattern that [local2Remote] tests file names with. *)
Theorem C9_four_digit_year_eligible : forall d,
  calendar_date d -> 1000 <= getFullYear d <= 9999 ->
  name_matches (dateFormat (Some d) ++ ".log") = true.
Proof.
  intros d Hc Hy. now apply logFileName_matches.
Qed.

Lemma C9_four_digit_year_eligible_witness :
  name_matches (dateFormat (Some may_5_2017) ++ ".log") = true.
Proof.
  apply (C9_four_digit_year_eligible may_5_2017).
  - unfold calendar_date; simpl; lia.
  - simpl; lia.
Defined.

(** ** The record that the middleware submits *)

Lemma submitted_record : forall self now ctx next ctx' optData err,
  middleware_record self now ctx next = (ctx', Submit optData err) ->
  next ctx = (ctx', err) /\
  get optData "resource" = Some (or_null (getResource self ctx)) /\
  get optData "status" = Some (VNum (if caught err then -1 else 1)) /\
  field_of optData "originRequest" "body"
    = Some (limit_body self (request_body ctx)) /\
  field_of optData "originResponse" "body"
    = Some (limit_body self (body ctx')).
Proof.
  intros self now ctx next ctx' optData err H.
  unfold middleware_record in H.
  destruct (match filter self with
            | Some f => negb (f (url ctx) (toLowerCase (method ctx)))
            | None => false
            end).
  - destruct (next ctx); discriminate.
  - destruct (next ctx) as [c e].
    destruct (strict_rejects _ _); [discriminate|].
    injection H as <- <- <-.
    repeat split; reflexivity.
Qed.

Lemma constructor_bodySizeLimit : forall opts mk self,
  constructor opts mk = inr self -> bodySizeLimit self = 2048.
Proof.
  intros opts mk self H. unfold constructor in H.
  destruct (opt_getUserId opts); [|discriminate].
  destruct (opt_getResource opts); [|discriminate].
  destruct (opt_dbSaver opts) as [saver|]; [|discriminate].
  destruct (dbClient saver); [|discriminate].
  destruct mk; [|discriminate].
  injection H as <-. reflexivity.
Qed.

Lemma demo_engine_constructed : forall userId resource strict,
  constructor (demo_options userId resource strict) true
  = inr (demo_engine userId resource strict).
Proof. reflexivity. Qed.

(** C7, as stated, fails: a request body whose serialized size is exactly
    2048, which does not exceed the limit, is replaced with the empty object
    in the submitted record. *)
Lemma C7_body_at_limit_replaced :
  length (JSON_stringify body_of_2048) = 2048 /\
  body_of_2048 <> VObj [] /\
  exists ctx' optData err,
    middleware_record (demo_engine None None []) may_5_2017
                      (demo_ctx (Some body_of_2048)) demo_next
    = (ctx', Submit optData err) /\
    field_of optData "originRequest" "body" = Some (VObj []).
Proof.
  split; [vm_compute; reflexivity|].
  split; [discriminate|].
  eexists; eexists; eexists. split; vm_compute; reflexivity.
Qed.

(** C7, amended: in a submitted record the request body and the response
    body (an absent or falsy body counting as the empty object) are each
    replaced with an empty object exactly when the length of the body's
    serialization is at least the limit of 2048; a body whose serialization
    is shorter is recorded unchanged. *)
Theorem C7_bodies_limited : forall opts mk self now ctx next ctx' optData err,
  constructor opts mk = inr self ->
  middleware_record self now ctx next = (ctx', Submit optData err) ->
  field_of optData "originRequest" "body"
    = Some (let reqBody := or_empty_object (request_body ctx) in
            if 2048 <=? length (JSON_stringify reqBody) then VObj []
            else reqBody) /\
  field_of optData "originResponse" "body"
    = Some (let resBody := or_empty_object (body ctx') in
            if 2048 <=? length (JSON_stringify resBody) then VObj []
            else resBody).
Proof.
  intros opts mk self now ctx next ctx' optData err Hc H.
  apply constructor_bodySizeLimit in Hc.
  destruct (submitted_record _ _ _ _ _ _ _ H) as (_ & _ & _ & Hreq & Hres).
  rewrite Hreq, Hres. unfold limit_body. rewrite Hc. split; reflexivity.
Qed.

Lemma C7_bodies_limited_witness :
  exists ctx' optData err,
    middleware_record (demo_engine None None []) may_5_2017
                      (demo_ctx (Some (VObj [("n", VNum 7)]))) demo_next
    = (ctx', Submit optData err) /\
    field_of optData "originRequest" "body" = Some (VObj [("n", VNum 7)]) /\
    field_of optData "originResponse" "body" = Some (VObj [("ok", VBool true)]).
Proof.
  eexists; eexists; eexists.
  assert (H : middleware_record (demo_engine None None []) may_5_2017
                (demo_ctx (Some (VObj [("n", VNum 7)]))) demo_next
              = (_, Submit _ _)) by (vm_compute; reflexivity).
  split; [exact H|].
  exact (C7_bodies_limited (demo_options None None []) true _ _ _ _ _ _ _
           (demo_engine_constructed None None []) H).
Defined.

(** C10: every record handed to [submit] has status -1 (the handler threw an
    error) or 1 (it did not); the 0 of line 142 never survives. *)
Theorem C10_submitted_status : forall self now ctx next ctx' optData err,
  middleware_record self now ctx next = (ctx', Submit optData err) ->
  (get optData "status" = Some (VNum (-1)) /\ caught err = true) \/
  (get optData "status" = Some (VNum 1) /\ caught err = false).
Proof.
  intros self now ctx next ctx' optData err H.
  destruct (submitted_record _ _ _ _ _ _ _ H) as (_ & _ & Hs & _).
  rewrite Hs. destruct (caught err); [left|right]; split; reflexivity.
Qed.

Lemma C10_submitted_status_witness :
  exists optData,
    snd (middleware_record (demo_engine None None []) may_5_2017
                           (demo_ctx None) demo_next)
    = Submit optData None /\
    get optData "status" = Some (VNum 1).
Proof.
  eexists. split; [vm_compute; reflexivity|].
  destruct (C10_submitted_status (demo_engine None None []) may_5_2017
              (demo_ctx None) demo_next _ _ None eq_refl) as [[_ H]|[H _]].
  - discriminate H.
  - exact H.
Defined.

(** ** The strict check *)

(** A strict key that is not an own property of the record drops it. *)
Lemma strict_rejects_absent : forall strict optData key,
  In (key, VBool true) strict ->
  hasOwnProperty optData key = false ->
  strict_rejects strict optData = true.
Proof.
  induction strict as [|[k item] rest IH]; intros optData key Hin Habs.
  - destruct Hin.
  - simpl. destruct Hin as [Heq|Hin].
    + injection Heq as -> ->. now rewrite Habs.
    + destruct item as [|[|]| | | | |]; try (now apply (IH _ key)).
      destruct (hasOwnProperty optData k); simpl; [now apply (IH _ key)|reflexivity].
Qed.

(** C6 on the code: with [strict = {resource: true}] and a resource resolver
    that yields nothing, the record is not dropped.  Line 139 has stored
    [null] under [resource], so [hasOwnProperty('resource')] holds and the
    record goes to [submit]. *)
Theorem C6_null_resource_submitted : forall self now ctx next,
  strictObj self = [("resource", VBool true)] ->
  filter self = None ->
  getResource self ctx = None ->
  exists optData err,
    snd (middleware_record self now ctx next) = Submit optData err /\
    get optData "resource" = Some VNull.
Proof.
  intros self now ctx next Hstrict Hfilter Hres.
  unfold middleware_record. rewrite Hfilter, Hstrict.
  destruct (next ctx) as [ctx' err].
  unfold optData_at_start. rewrite Hres.
  eexists; eexists. split; reflexivity.
Qed.

Lemma C6_null_resource_submitted_witness :
  exists optData err,
    snd (middleware_record
           (demo_engine (Some (VStr "u1")) None [("resource", VBool true)])
           may_5_2017 (demo_ctx None) demo_next)
    = Submit optData err /\
    get optData "resource" = Some VNull.
Proof.
  apply (C6_null_resource_submitted
           (demo_engine (Some (VStr "u1")) None [("resource", VBool true)])
           may_5_2017 (demo_ctx None) demo_next); reflexivity.
Defined.

(** ** The flush decision *)

Lemma find_file_listed : forall dir n,
  In n (map fst dir) <-> exists f, find_file dir n = Some f.
Proof.
  induction dir as [|[m g] rest IH]; intros n; simpl.
  - split; [intros []|intros [f Hf]; discriminate].
  - destruct (String.eqb m n) eqn:E.
    + apply String.eqb_eq in E. split; [eauto|auto].
    + apply String.eqb_neq in E. rewrite <- IH. split; [intros [H|H]; [contradiction|assumption]|auto].
Qed.

Lemma stat_ok_result : forall env st n,
  In n (map fst (fs st)) -> stat_ok env n = true ->
  exists f, find_file (fs st) n = Some f /\ stat env n st = (Ok f, st).
Proof.
  intros env st n Hin Hok. apply find_file_listed in Hin as [f Hf].
  exists f. split; [assumption|]. unfold stat. now rewrite Hf, Hok.
Qed.

Lemma checkFiles_decides : forall self env st files,
  (forall n, In n files -> In n (map fst (fs st)) /\ stat_ok env n = true) ->
  exists b,
    checkFiles self env files st = (Ok b, st) /\
    (b = true <->
     exists n f, In n files /\ find_file (fs st) n = Some f /\
                 over_threshold self env n f).
Proof.
  intros self env st files. induction files as [|n rest IH]; intros Hall.
  - exists false. split; [reflexivity|].
    split; [discriminate|intros (n & f & [] & _)].
  - destruct (Hall n (or_introl eq_refl)) as [Hin Hok].
    destruct (stat_ok_result env st n Hin Hok) as (f & Hf & Hstat).
    simpl. unfold bind. rewrite Hstat.
    destruct (fileSizeLimit self <? size f) eqn:Hsize.
    + exists true. split; [reflexivity|]. split; [|reflexivity].
      intros _. exists n, f. repeat split; auto.
      left. now apply Z.ltb_lt.
    + destruct (fileExpireTime self <=? clock env n - birthtime f) eqn:Hage.
      * exists true. split; [reflexivity|]. split; [|reflexivity].
        intros _. exists n, f. repeat split; auto.
        right. now apply Z.leb_le.
      * destruct IH as (b & Hb & Hiff); [intros m Hm; apply Hall; now right|].
        exists b. split; [assumption|]. rewrite Hiff.
        apply Z.ltb_ge in Hsize. apply Z.leb_gt in Hage.
        split.
        -- intros (m & g & Hm & Hg & Ho). exists m, g. repeat split; auto.
        -- intros (m & g & [<-|Hm] & Hg & Ho).
           ++ rewrite Hf in Hg. injection Hg as <-.
              destruct Ho; lia.
           ++ exists m, g. repeat split; auto.
Qed.

(** [checkStatus] only reads: whatever it returns, the state is the same. *)
Lemma checkFiles_reads_only : forall self env files st,
  snd (checkFiles self env files st) = st.
Proof.
  intros self env files st. induction files as [|n rest IH]; [reflexivity|].
  simpl. unfold bind, stat.
  destruct (find_file (fs st) n) as [f|]; [|reflexivity].
  destruct (stat_ok env n); [|reflexivity].
  destruct (fileSizeLimit self <? size f); [reflexivity|].
  destruct (fileExpireTime self <=? _); [reflexivity|apply IH].
Qed.

Lemma checkStatus_reads_only : forall self env st,
  snd (checkStatus self env st) = st.
Proof.
  intros self env st. unfold checkStatus, bind, readdir.
  destruct (readdir_ok env); [|reflexivity].
  destruct (filesLimit self <? _); [reflexivity|apply checkFiles_reads_only].
Qed.

(** The loop answers [true] at the first file over a threshold and does not
    look at the files listed after it. *)
Lemma checkFiles_short_circuit : forall self env st pre n f post,
  (forall m, In m pre ->
     exists g, stat env m st = (Ok g, st) /\ ~ over_threshold self env m g) ->
  stat env n st = (Ok f, st) -> over_threshold self env n f ->
  checkFiles self env (pre ++ n :: post) st = (Ok true, st).
Proof.
  intros self env st pre n f post. induction pre as [|m pre IH]; intros Hpre Hn Ho.
  - simpl. unfold bind. rewrite Hn.
    destruct Ho as [Ho|Ho].
    + apply Z.ltb_lt in Ho. now rewrite Ho.
    + apply Z.leb_le in Ho. rewrite Ho. now destruct (_ <? _).
  - simpl. unfold bind.
    destruct (Hpre m (or_introl eq_refl)) as (g & Hg & Hno). rewrite Hg.
    unfold over_threshold in Hno.
    destruct (fileSizeLimit self <? size g) eqn:E1;
      [apply Z.ltb_lt in E1; tauto|].
    destruct (fileExpireTime self <=? clock env m - birthtime g) eqn:E2;
      [apply Z.leb_le in E2; tauto|].
    apply IH; auto. intros k Hk. apply Hpre. now right.
Qed.

(** C3: when the directory can be listed and its files inspected,
    [checkStatus] returns [true] if and only if there are more files than
    [filesLimit], or some file is larger than [fileSizeLimit], or some file
    is at least [fileExpireTime] old; otherwise it returns [false]; and it
    leaves the buffer as it found it. *)
Theorem C3_checkStatus_decides : forall self env st,
  readdir_ok env = true ->
  (forall n, In n (map fst (fs st)) -> stat_ok env n = true) ->
  exists b,
    checkStatus self env st = (Ok b, st) /\
    (b = true <->
     filesLimit self < Z.of_nat (List.length (fs st)) \/
     exists n f, find_file (fs st) n = Some f /\
                 (fileSizeLimit self < size f \/
                  fileExpireTime self <= clock env n - birthtime f)).
Proof.
  intros self env st Hdir Hstat.
  unfold checkStatus, bind, readdir. rewrite Hdir, length_map.
  destruct (filesLimit self <? Z.of_nat (List.length (fs st))) eqn:Hcount.
  - exists true. split; [reflexivity|]. split; [|reflexivity].
    intros _. left. now apply Z.ltb_lt.
  - destruct (checkFiles_decides self env st (map fst (fs st)))
      as (b & Hb & Hiff); [intros n Hn; split; auto|].
    exists b. split; [assumption|]. rewrite Hiff.
    apply Z.ltb_ge in Hcount. split.
    + intros (n & f & _ & Hf & Ho). right. now exists n, f.
    + intros [Hc|(n & f & Hf & Ho)]; [lia|].
      exists n, f. repeat split; auto.
      apply find_file_listed. now exists f.
Qed.

(** ** The upload loop *)

Section EngineProperties.

Variable JSON_parse : string -> option value.
Variable newDate : option value -> Date.

Local Abbreviation upload_file := (upload_file JSON_parse newDate).
Local Abbreviation uploadFiles := (uploadFiles JSON_parse newDate).
Local Abbreviation local2Remote := (local2Remote JSON_parse newDate).
Local Abbreviation read_file := (read_file JSON_parse newDate).
Local Abbreviation on_event := (on_event JSON_parse newDate).
Local Abbreviation step := (step JSON_parse newDate).
Local Abbreviation submit := (submit JSON_parse newDate).
Local Abbreviation middleware_koa := (middleware_koa JSON_parse newDate).

Lemma upload_file_keeps_fs : forall env n st,
  fs (snd (upload_file env n st)) = fs st.
Proof.
  intros env n st. unfold upload_file.
  destruct (awaited _); reflexivity.
Qed.

Lemma find_file_remove_other : forall dir n m,
  n <> m -> find_file (remove_file dir m) n = find_file dir n.
Proof.
  induction dir as [|[k f] rest IH]; intros n m Hne; simpl; [reflexivity|].
  destruct (String.eqb k m) eqn:Ekm; simpl.
  - apply String.eqb_eq in Ekm. subst k.
    destruct (String.eqb m n) eqn:Emn; [|now apply IH].
    apply String.eqb_eq in Emn. congruence.
  - destruct (String.eqb k n); [reflexivity|now apply IH].
Qed.

Lemma find_file_remove_same : forall dir n,
  find_file (remove_file dir n) n = None.
Proof.
  induction dir as [|[k f] rest IH]; intros n; simpl; [reflexivity|].
  destruct (String.eqb k n) eqn:E; simpl; [apply IH|].
  rewrite E. apply IH.
Qed.

(** The loop touches no file outside the list it is given. *)
Lemma uploadFiles_elsewhere : forall env files st n,
  ~ In n files ->
  find_file (fs (snd (uploadFiles env files st))) n = find_file (fs st) n.
Proof.
  intros env files. induction files as [|m rest IH]; intros st n Hn.
  - reflexivity.
  - simpl. destruct (name_matches m); simpl; [|reflexivity].
    unfold bind.
    pose proof (upload_file_keeps_fs env m st) as Hkeep.
    destruct (upload_file env m st) as [[[]|e|] st1]; simpl in *;
      try (now rewrite Hkeep).
    unfold unlink. destruct (unlink_ok env m); simpl; [|now rewrite Hkeep].
    rewrite IH by (intros H; apply Hn; now right). simpl.
    rewrite find_file_remove_other by (intros ->; apply Hn; now left).
    now rewrite Hkeep.
Qed.

(** A name that does not match ends the loop where it stands. *)
Lemma uploadFiles_stops : forall env pre bad post st,
  name_matches bad = false ->
  uploadFiles env (pre ++ bad :: post) st = uploadFiles env pre st.
Proof.
  intros env pre bad post st Hbad. revert st.
  induction pre as [|m pre IH]; intros st; simpl.
  - now rewrite Hbad.
  - destruct (name_matches m); simpl; [|reflexivity].
    unfold bind.
    destruct (upload_file env m st) as [[[]|e|] st1]; try reflexivity.
    destruct (unlink env m st1) as [[[]|e|] st2]; try reflexivity.
    apply IH.
Qed.

(** C5: a listed name that does not match the pattern ends the drain
    without an error: the call does what it did for the files listed before
    that name and nothing more, and the file of that name and the files
    listed after it are still there, as they were. *)
Theorem C5_unmatched_name_ends_drain : forall env st pre bad post,
  readdir_ok env = true ->
  map fst (fs st) = (pre ++ bad :: post)%list ->
  NoDup (map fst (fs st)) ->
  name_matches bad = false ->
  local2Remote env st = uploadFiles env pre st /\
  (forall st', uploadFiles env (bad :: post) st' = (Ok tt, st')) /\
  (forall n, In n (bad :: post) ->
     find_file (fs (snd (local2Remote env st))) n = find_file (fs st) n).
Proof.
  intros env st pre bad post Hdir Hlist Hnodup Hbad.
  assert (Heq : local2Remote env st = uploadFiles env pre st).
  { unfold local2Remote, readdir. rewrite Hdir, Hlist.
    now apply uploadFiles_stops. }
  split; [exact Heq|]. split.
  - intros st'. simpl. now rewrite Hbad.
  - intros n Hn. rewrite Heq. apply uploadFiles_elsewhere.
    rewrite Hlist in Hnodup. intros Hpre.
    revert Hnodup Hpre Hn. clear.
    induction pre as [|m pre IH]; intros Hnodup Hpre Hn; [destruct Hpre|].
    simpl in Hnodup. inversion Hnodup as [|? ? Hnotin Hrest]; subst.
    destruct Hpre as [->|Hpre].
    + apply Hnotin. apply in_or_app. now right.
    + now apply IH.
Qed.

(** *** Reading one file when the sink accepts every record *)

Local Abbreviation record_of := (record_of JSON_parse newDate).
Local Abbreviation records_of := (records_of JSON_parse newDate).
Local Abbreviation line_ok := (line_ok JSON_parse newDate).
Local Abbreviation reading := (reading JSON_parse newDate).

Lemma resolve_settles : forall p,
  p = Pending \/ p = Resolved -> resolve p = Resolved.
Proof. intros p [->| ->]; reflexivity. Qed.

Lemma reading_open : forall f,
  forallb line_ok (lines f) = true -> reading f (open_reader (Some f)).
Proof.
  intros f Hok. unfold reading; simpl. repeat split; auto; discriminate.
Qed.

Lemma reading_on_event : forall f ev r,
  benign ev = true -> reading f r -> reading f (on_event ev r).
Proof.
  intros f ev [u p s a w e] Hev (Hp & Hok & Hw & He); simpl in *.
  assert (Hres : resolve w = Resolved) by now apply resolve_settles.
  destruct ev as [|k ok| |]; simpl in *; try discriminate.
  - (* Line *)
    destruct u as [|line rest]; simpl in *; [unfold reading; simpl; tauto|].
    assert (Hne : e = true -> False) by (intros H; now destruct (He H)).
    apply andb_true_iff in Hok as [Hline Hrest].
    unfold on_line. simpl.
    unfold records_of in Hp. simpl in Hp.
    unfold record_of in Hp. unfold line_ok in Hline.
    destruct (String.eqb line ""); simpl in *.
    + unfold reading; simpl; tauto.
    + destruct (JSON_parse line) as [o|]; simpl in *.
      * destruct (revive newDate o) as [o'|]; [|discriminate]. simpl in *.
        unfold reading; simpl. rewrite <- app_assoc. simpl. tauto.
      * unfold reading; simpl; tauto.
  - (* Settled *)
    destruct ok; [|discriminate].
    unfold on_settled; simpl.
    destruct (nth_error p k); [|unfold reading; simpl; tauto].
    destruct (existsb (Nat.eqb k) s); unfold reading; simpl; tauto.
  - (* End *)
    destruct u; [|unfold reading; simpl; tauto].
    destruct e; unfold reading; simpl; tauto.
Qed.

Lemma reading_fold : forall f evs r,
  forallb benign evs = true -> reading f r ->
  reading f (fold_left (fun r ev => on_event ev r) evs r).
Proof.
  intros f evs. induction evs as [|ev evs IH]; intros r Hev Hr; simpl.
  - assumption.
  - simpl in Hev. apply andb_true_iff in Hev as [H1 H2].
    apply IH; [assumption|]. now apply reading_on_event.
Qed.

(** When the reader gets to its end and no push is rejected, every line
    that parses has been handed to the sink, in file order, blank and
    malformed lines notwithstanding, and the promise is resolved. *)
Lemma read_file_tolerant : forall f evs,
  forallb line_ok (lines f) = true ->
  forallb benign evs = true ->
  ended (read_file (Some f) evs) = true ->
  pushes (read_file (Some f) evs) = records_of (lines f) /\
  awaited (read_file (Some f) evs) = Resolved.
Proof.
  intros f evs Hok Hev Hend.
  destruct (reading_fold f evs _ Hev (reading_open f Hok))
    as (Hp & _ & _ & He).
  fold (read_file (Some f) evs) in Hp, He.
  destruct (He Hend) as [Hu Hw]. rewrite Hu in Hp. simpl in Hp.
  rewrite app_nil_r in Hp. now split.
Qed.

(** C4: a file whose lines are blank, malformed or records, read to its
    end while the sink accepts what it is given: every record is handed to
    the sink in file order, the other lines are skipped, the loop goes on
    to delete the file and ends without an error. *)
Theorem C4_blank_and_malformed_lines_skipped : forall env st fileName f,
  find_file (fs st) fileName = Some f ->
  name_matches fileName = true ->
  unlink_ok env fileName = true ->
  forallb line_ok (lines f) = true ->
  forallb benign (arrival env fileName) = true ->
  ended (read_file (Some f) (arrival env fileName)) = true ->
  exists st',
    uploadFiles env [fileName] st = (Ok tt, st') /\
    handed st' = (handed st ++ records_of (lines f))%list /\
    find_file (fs st') fileName = None.
Proof.
  intros env st fileName f Hf Hname Hunlink Hok Hev Hend.
  destruct (read_file_tolerant f _ Hok Hev Hend) as [Hp Hw].
  simpl. rewrite Hname. simpl.
  unfold bind, upload_file. rewrite Hf, Hw.
  unfold unlink. rewrite Hunlink. simpl.
  eexists. split; [reflexivity|]. simpl. split.
  - now rewrite Hp.
  - apply find_file_remove_same.
Qed.

(** *** The promise of a file is settled once *)

Lemma resolved_stays : forall ev r,
  awaited r = Resolved -> awaited (on_event ev r) = Resolved.
Proof.
  intros ev [u p s a w e] Hw; simpl in *. subst w.
  destruct ev as [|k ok| |]; simpl.
  - destruct u as [|line rest]; [reflexivity|].
    unfold on_line; simpl.
    destruct (String.eqb line ""); [reflexivity|].
    destruct (JSON_parse line) as [o|]; [|reflexivity].
    destruct (revive newDate o); reflexivity.
  - unfold on_settled; simpl.
    destruct (nth_error p k); [|reflexivity].
    destruct (existsb (Nat.eqb k) s); [reflexivity|].
    destruct ok; reflexivity.
  - destruct u; [|reflexivity]. destruct e; reflexivity.
  - destruct e; reflexivity.
Qed.

Lemma resolved_stays_fold : forall evs r,
  awaited r = Resolved ->
  awaited (fold_left (fun r ev => on_event ev r) evs r) = Resolved.
Proof.
  induction evs as [|ev evs IH]; intros r Hr; simpl; [assumption|].
  apply IH. now apply resolved_stays.
Qed.

(** Once the push of the first record is acknowledged the promise of the
    file is resolved, whatever the later pushes of the file do. *)
Lemma first_ack_resolves : forall created sz line rest o evs,
  record_of line = Some o ->
  awaited (read_file (Some (mkFile created sz (line :: rest)))
                     (Line :: Settled 0 true :: evs)) = Resolved.
Proof.
  intros created sz line rest o evs Hrec.
  unfold read_file. simpl fold_left at 1.
  apply resolved_stays_fold.
  unfold record_of in Hrec.
  simpl. unfold on_line. simpl.
  destruct (String.eqb line ""); [discriminate|].
  destruct (JSON_parse line) as [v|]; [|discriminate].
  rewrite Hrec. reflexivity.
Qed.

(** *** The flag that [submit] reads *)

Lemma uploadFiles_keeps_flag : forall env files st,
  onSubmitting (snd (uploadFiles env files st)) = onSubmitting st.
Proof.
  intros env files. induction files as [|m rest IH]; intros st; simpl.
  - reflexivity.
  - destruct (name_matches m); simpl; [|reflexivity].
    unfold bind, upload_file.
    destruct (awaited _); simpl; try reflexivity.
    unfold unlink. destruct (unlink_ok env m); simpl; [|reflexivity].
    now rewrite IH.
Qed.

Lemma local2Remote_keeps_flag : forall env st,
  onSubmitting (snd (local2Remote env st)) = onSubmitting st.
Proof.
  intros env st. unfold local2Remote, readdir.
  destruct (readdir_ok env); [apply uploadFiles_keeps_flag|reflexivity].
Qed.

(** No step of [submit] sets [onSubmitting]: the only assignment that was
    meant to, line 259, writes [submitting]. *)
Lemma step_never_sets_flag : forall self env p st,
  onSubmitting st = false -> onSubmitting (snd (step self env p st)) = false.
Proof.
  intros self env p st Hst. destruct p as [[d|]| | | | |]; simpl; auto.
  - unfold saveLocal, appendFile.
    destruct (append_ok env); simpl; auto.
  - now rewrite Hst.
  - pose proof (checkStatus_reads_only self env st) as Hro.
    destruct (checkStatus self env st) as [[[|]|e|] st']; simpl in *;
      subst st'; auto.
  - destruct (local2Remote env st) as [[[]|e|] st'] eqn:E; simpl; auto.
    pose proof (local2Remote_keeps_flag env st) as Hk.
    rewrite E in Hk. simpl in Hk. congruence.
Qed.

Lemma run_never_sets_flag : forall self env acts sys,
  onSubmitting (shared sys) = false ->
  onSubmitting (shared (run JSON_parse newDate self env acts sys)) = false.
Proof.
  intros self env acts. induction acts as [|a acts IH]; intros sys Hsys.
  - assumption.
  - simpl. apply IH. destruct a as [d|i]; simpl; [assumption|].
    destruct (nth_error (tasks sys) i) as [p|]; [|assumption].
    pose proof (step_never_sets_flag self env p (shared sys) Hsys) as H.
    destruct (step self env p (shared sys)). exact H.
Qed.

End EngineProperties.

(** ** The scenarios of the specification *)

Lemma C3_checkStatus_decides_witness :
  exists b,
    checkStatus (demo_engine None None []) (demo_env [])
                (demo_state [("2017-5-5.log", three_records)])
    = (Ok b, demo_state [("2017-5-5.log", three_records)]) /\
    (b = true <->
     1 < 1 \/
     exists n f,
       find_file [("2017-5-5.log", three_records)] n = Some f /\
       (10240 < size f \/
        10000 <= getTime may_5_2017 + 60000 - birthtime f)).
Proof.
  apply (C3_checkStatus_decides (demo_engine None None []) (demo_env [])
           (demo_state [("2017-5-5.log", three_records)])).
  - reflexivity.
  - intros n _. reflexivity.
Defined.

(** The file of the example is a minute old, which is past the ten seconds
    of [fileExpireTime]: the decision is [true]. *)
Example checkStatus_expired_file :
  checkStatus (demo_engine None None []) (demo_env [])
              (demo_state [("2017-5-5.log", three_records)])
  = (Ok true, demo_state [("2017-5-5.log", three_records)]).
Proof. vm_compute. reflexivity. Qed.

(** A file just created, small and alone: the decision is [false]. *)
Example checkStatus_fresh_file :
  checkStatus (demo_engine None None []) quiet_env
              (demo_state [("2017-5-5.log", three_records)])
  = (Ok false, demo_state [("2017-5-5.log", three_records)]).
Proof. vm_compute. reflexivity. Qed.

Lemma C4_blank_and_malformed_lines_skipped_witness :
  exists st',
    uploadFiles demo_parse demo_newDate (demo_env all_pushes_accepted)
                ["2017-5-5.log"]
                (demo_state [("2017-5-5.log", three_records_one_malformed)])
    = (Ok tt, st') /\
    handed st' = [demo_pushed "a"; demo_pushed "b"; demo_pushed "c"] /\
    find_file (fs st') "2017-5-5.log" = None.
Proof.
  apply (C4_blank_and_malformed_lines_skipped demo_parse demo_newDate
           (demo_env all_pushes_accepted)
           (demo_state [("2017-5-5.log", three_records_one_malformed)])
           "2017-5-5.log" three_records_one_malformed);
    vm_compute; reflexivity.
Defined.

(** The scenario of C4 in full: three records stored, the malformed line
    passed over, the directory empty. *)
Example drain_three_valid_one_malformed :
  local2Remote demo_parse demo_newDate (demo_env all_pushes_accepted)
               (demo_state [("2017-5-5.log", three_records_one_malformed)])
  = (Ok tt,
     mkState [] [demo_pushed "a"; demo_pushed "b"; demo_pushed "c"]
             [demo_pushed "a"; demo_pushed "b"; demo_pushed "c"] false false).
Proof. vm_compute. reflexivity. Qed.

(** A blank line between records resolves the promise and is passed over
    like a malformed one. *)
Example drain_with_blank_line :
  local2Remote demo_parse demo_newDate
               (demo_env [Line; Line; Line; Settled 0 true; Settled 1 true; End])
               (demo_state [("2017-5-5.log",
                             file_of 0 [demo_line "a"; ""; demo_line "b"])])
  = (Ok tt,
     mkState [] [demo_pushed "a"; demo_pushed "b"]
             [demo_pushed "a"; demo_pushed "b"] false false).
Proof. vm_compute. reflexivity. Qed.

Lemma C5_unmatched_name_ends_drain_witness :
  let env := demo_env [Line; Line; Line; Settled 0 true; End] in
  let st := demo_state [("2017-5-4.log", three_records);
                        ("notes.txt", three_records);
                        ("2017-5-5.log", three_records)] in
  local2Remote demo_parse demo_newDate env st
  = uploadFiles demo_parse demo_newDate env ["2017-5-4.log"] st /\
  (forall st', uploadFiles demo_parse demo_newDate env
                 ["notes.txt"; "2017-5-5.log"] st' = (Ok tt, st')) /\
  (forall n, In n ["notes.txt"; "2017-5-5.log"] ->
     find_file (fs (snd (local2Remote demo_parse demo_newDate env st))) n
     = find_file (fs st) n).
Proof.
  intros env st.
  apply (C5_unmatched_name_ends_drain demo_parse demo_newDate env st
           ["2017-5-4.log"] "notes.txt" ["2017-5-5.log"]).
  - reflexivity.
  - reflexivity.
  - simpl. repeat constructor; simpl; intuition discriminate.
  - vm_compute. reflexivity.
Defined.

(** The drain of that directory deletes the first file and leaves the other
    two. *)
Example drain_stops_at_unmatched_name :
  map fst (fs (snd (local2Remote demo_parse demo_newDate
                      (demo_env [Line; Line; Line; Settled 0 true; End])
                      (demo_state [("2017-5-4.log", three_records);
                                   ("notes.txt", three_records);
                                   ("2017-5-5.log", three_records)]))))
  = ["notes.txt"; "2017-5-5.log"].
Proof. vm_compute. reflexivity. Qed.

(** The record of C6 is appended: after the request the buffer holds the
    day's file with one line, whose [resource] is [null]. *)
Example strict_resource_record_appended :
  let self := demo_engine (Some (VStr "u1")) None [("resource", VBool true)] in
  let st := snd (middleware_koa demo_parse demo_newDate self quiet_env
                   may_5_2017 (demo_ctx None) demo_next (demo_state [])) in
  map (fun nf => (fst nf, List.length (lines (snd nf)))) (fs st)
  = [("2017-5-5.log", 1%nat)] /\
  exists optData,
    snd (middleware_record self may_5_2017 (demo_ctx None) demo_next)
    = Submit optData None /\
    get optData "resource" = Some VNull /\
    find_file (fs st) "2017-5-5.log"
    = Some (file_of (getTime may_5_2017) [JSON_stringify (VObj optData)]).
Proof.
  split; [vm_compute; reflexivity|].
  eexists. split; [vm_compute; reflexivity|].
  split; vm_compute; reflexivity.
Qed.

(** C1 on the code: a file of three records whose second push is rejected
    is deleted all the same.  The acknowledgement of the first push has
    already resolved the promise that [local2Remote] awaits, so the rejection
    has no effect and [unlinkAsync] runs; the second record is in no file
    and not in the store.  It is so whether the lines are emitted at once or
    each push settles before the next line. *)
Theorem C1_file_deleted_despite_rejection :
  local2Remote demo_parse demo_newDate (demo_env second_push_rejected)
               (demo_state [("2017-5-5.log", three_records)])
  = (Ok tt,
     mkState [] [demo_pushed "a"; demo_pushed "b"; demo_pushed "c"]
             [demo_pushed "a"; demo_pushed "c"] false false) /\
  local2Remote demo_parse demo_newDate (demo_env second_push_rejected_in_turn)
               (demo_state [("2017-5-5.log", three_records)])
  = (Ok tt,
     mkState [] [demo_pushed "a"; demo_pushed "b"; demo_pushed "c"]
             [demo_pushed "a"; demo_pushed "c"] false false).
Proof. split; vm_compute; reflexivity. Qed.

(** Only a rejection that settles before every acknowledgement and before
    the end of the file keeps the file. *)
Example rejection_first_keeps_file :
  local2Remote demo_parse demo_newDate
               (demo_env [Line; Line; Line; Settled 1 false; Settled 0 true;
                          Settled 2 true; End])
               (demo_state [("2017-5-5.log", three_records)])
  = (Throw SinkRejected,
     mkState [("2017-5-5.log", three_records)]
             [demo_pushed "a"; demo_pushed "b"; demo_pushed "c"]
             [demo_pushed "a"; demo_pushed "c"] false false).
Proof. vm_compute. reflexivity. Qed.

(** C2 on the code: the timer calls [submit] with two files in the buffer
    and the call reaches [local2Remote]; [onSubmitting] is still false, so a
    second call made while that drain is in progress passes the check of
    line 251 and starts a drain of its own. *)
Theorem C2_two_drains_at_once :
  let self := demo_engine None None [] in
  let env := demo_env [] in
  let st := demo_state [("2017-5-4.log", three_records);
                        ("2017-5-5.log", three_records)] in
  let first := run demo_parse demo_newDate self env
                   [Call None; Resume 0; Resume 0; Resume 0]
                   (mkSystem [] st) in
  let both := run demo_parse demo_newDate self env
                  [Call None; Resume 1; Resume 1; Resume 1] first in
  tasks first = [Draining] /\
  onSubmitting (shared first) = false /\
  submitting (shared first) = true /\
  tasks both = [Draining; Draining] /\
  active_drains both = 2%nat.
Proof. vm_compute. repeat split; reflexivity. Qed.

(** * Further properties of the code *)

(** ** The middleware *)

Lemma middleware_record_accepted : forall self now ctx next,
  filter_declines self ctx = false ->
  exists optData,
    keys optData = record_keys /\
    get optData "userId"
      = Some (let userId := or_null (getUserId self ctx) in
              if truthy userId then userId
              else or_null (getUserId self (fst (next ctx)))) /\
    get optData "operation" = Some (VStr (toLowerCase (method ctx))) /\
    field_of optData "originRequest" "method"
      = Some (VStr (toLowerCase (method ctx))) /\
    field_of optData "originResponse" "statusCode"
      = Some (VNum (statusCode (snd (next ctx)) (fst (next ctx)))) /\
    middleware_record self now ctx next
    = (fst (next ctx),
       if strict_rejects (strictObj self) optData then Dropped (snd (next ctx))
       else Submit optData (snd (next ctx))).
Proof.
  intros self now ctx next Hf. unfold filter_declines in Hf.
  unfold middleware_record. rewrite Hf.
  destruct (next ctx) as [ctx' err]. simpl fst. simpl snd. cbv zeta.
  match goal with |- context [strict_rejects _ ?o] => exists o end.
  repeat split; try reflexivity.
  destruct (strict_rejects _ _); reflexivity.
Qed.

Lemma hasOwnProperty_keys : forall o key,
  hasOwnProperty o key = existsb (fun k => String.eqb k key) (keys o).
Proof.
  intros o key. unfold hasOwnProperty, keys.
  induction o as [|[k v] rest IH]; simpl; [reflexivity|]. now rewrite IH.
Qed.

(** The strict loop looks at the keys of the record and at nothing else. *)
Lemma strict_rejects_record : forall strict optData,
  keys optData = record_keys ->
  strict_rejects strict optData = strict_outside strict.
Proof.
  intros strict optData Hk. unfold strict_outside.
  induction strict as [|[key item] rest IH]; simpl; [reflexivity|].
  rewrite hasOwnProperty_keys, Hk, IH.
  destruct item as [|[|]| | | | |]; reflexivity.
Qed.

(** X1: every record handed to [submit] has the same eight properties, in
    the same order: resource, operation, ip, status, createdAt,
    originRequest, userId, originResponse. *)
Theorem X1_submitted_record_keys : forall self now ctx next ctx' optData err,
  middleware_record self now ctx next = (ctx', Submit optData err) ->
  keys optData = record_keys.
Proof.
  intros self now ctx next ctx' optData err H.
  destruct (filter_declines self ctx) eqn:Hf.
  - unfold middleware_record in H. unfold filter_declines in Hf.
    rewrite Hf in H. destruct (next ctx); discriminate.
  - destruct (middleware_record_accepted self now ctx next Hf)
      as (o & Hk & _ & _ & _ & _ & Hrec).
    rewrite Hrec in H. destruct (strict_rejects _ o); [discriminate|].
    injection H as _ <- _. exact Hk.
Qed.

Lemma X1_submitted_record_keys_witness :
  exists optData,
    snd (middleware_record (demo_engine None None []) may_5_2017
                           (demo_ctx None) demo_next)
    = Submit optData None /\
    keys optData = record_keys.
Proof.
  eexists. split; [vm_compute; reflexivity|].
  exact (X1_submitted_record_keys (demo_engine None None []) may_5_2017
           (demo_ctx None) demo_next _ _ None eq_refl).
Defined.

(** X2: a request that the filter accepts is dropped by the strict check
    exactly when the strictness map holds [true] under a key that is none
    of the eight properties of a record; the values of the record play no
    part. *)
Theorem X2_dropped_iff_strict_key_outside_record : forall self now ctx next,
  filter_declines self ctx = false ->
  ((exists err, snd (middleware_record self now ctx next) = Dropped err) <->
   strict_outside (strictObj self) = true).
Proof.
  intros self now ctx next Hf.
  destruct (middleware_record_accepted self now ctx next Hf)
    as (o & Hk & _ & _ & _ & _ & Hrec).
  rewrite Hrec. simpl. rewrite (strict_rejects_record _ o Hk).
  destruct (strict_outside (strictObj self)); split.
  - reflexivity.
  - intros _. eexists. reflexivity.
  - intros [err H]. discriminate.
  - discriminate.
Qed.

Lemma X2_dropped_iff_strict_key_outside_record_witness :
  (exists err,
     snd (middleware_record (demo_engine None None [("tenant", VBool true)])
                            may_5_2017 (demo_ctx None) demo_next)
     = Dropped err) <->
  strict_outside [("tenant", VBool true)] = true.
Proof.
  apply (X2_dropped_iff_strict_key_outside_record
           (demo_engine None None [("tenant", VBool true)]) may_5_2017
           (demo_ctx None) demo_next).
  reflexivity.
Defined.


(** X4: the status code in a record handed to [submit] is never 0: it is
    the [status] of the error the handler threw, or 500 when that is absent
    or 0; and when no error was caught it is [ctx.status], or 404 when that
    is 0. *)
Theorem X4_recorded_status_code : forall self now ctx next ctx' optData err,
  middleware_record self now ctx next = (ctx', Submit optData err) ->
  exists c,
    field_of optData "originResponse" "statusCode" = Some (VNum c) /\
    c <> 0 /\
    (forall s, err = Some (Err (Some s)) -> s <> 0 -> c = s) /\
    (forall s, err = Some (Err s) -> (s = None \/ s = Some 0) -> c = 500) /\
    (caught err = false -> status ctx' <> 0 -> c = status ctx') /\
    (caught err = false -> status ctx' = 0 -> c = 404).
Proof.
  intros self now ctx next ctx' optData err H.
  destruct (filter_declines self ctx) eqn:Hf.
  - unfold middleware_record in H. unfold filter_declines in Hf.
    rewrite Hf in H. destruct (next ctx); discriminate.
  - destruct (middleware_record_accepted self now ctx next Hf)
      as (o & _ & _ & _ & _ & Hcode & Hrec).
    rewrite Hrec in H. destruct (strict_rejects _ o); [discriminate|].
    injection H as Hctx <- Herr. rewrite Hctx, Herr in Hcode.
    exists (statusCode err ctx'). split; [exact Hcode|].
    unfold statusCode, error_status.
    destruct err as [[|[s|]]|]; simpl.
    + destruct (status ctx' =? 0) eqn:E;
        [apply Z.eqb_eq in E|apply Z.eqb_neq in E];
        repeat split; try discriminate; try lia; intros; congruence.
    + destruct (s =? 0) eqn:E;
        [apply Z.eqb_eq in E|apply Z.eqb_neq in E];
        repeat split; try discriminate; try lia.
      * intros s' [= <-] Hs. contradiction.
      * intros s' [= <-] Hs. reflexivity.
      * intros s' [= <-] [Hn|[= Hz]]; [discriminate|contradiction].
    + repeat split; try discriminate.
    + destruct (status ctx' =? 0) eqn:E;
        [apply Z.eqb_eq in E|apply Z.eqb_neq in E];
        repeat split; try discriminate; try lia; intros; congruence.
Qed.

Lemma X4_recorded_status_code_witness :
  exists c,
    field_of
      (match snd (middleware_record (demo_engine None None []) may_5_2017
                    (demo_ctx None) demo_next) with
       | Submit optData _ => optData
       | _ => []
       end) "originResponse" "statusCode" = Some (VNum c) /\
    c <> 0.
Proof.
  destruct (X4_recorded_status_code (demo_engine None None []) may_5_2017
              (demo_ctx None) demo_next _ _ None eq_refl)
    as (c & Hc & Hnz & _).
  exists c. split; assumption.
Defined.

(** X5: the [userId] of a record is the identity resolved before the
    handler ran when there is one, whatever the handler did to the context
    (a logout); otherwise it is the identity resolved after the handler (a
    login), and [null] when that resolves to nothing either. *)
Theorem X5_recorded_userId : forall self now ctx next ctx' optData err,
  middleware_record self now ctx next = (ctx', Submit optData err) ->
  (forall u, getUserId self ctx = Some u -> truthy u = true ->
     get optData "userId" = Some u) /\
  (or_null (getUserId self ctx) = VNull ->
     get optData "userId" = Some (or_null (getUserId self ctx'))).
Proof.
  intros self now ctx next ctx' optData err H.
  destruct (filter_declines self ctx) eqn:Hf.
  - unfold middleware_record in H. unfold filter_declines in Hf.
    rewrite Hf in H. destruct (next ctx); discriminate.
  - destruct (middleware_record_accepted self now ctx next Hf)
      as (o & _ & Hu & _ & _ & _ & Hrec).
    rewrite Hrec in H. destruct (strict_rejects _ o); [discriminate|].
    injection H as Hctx <- _. rewrite Hctx in Hu. rewrite Hu. split.
    + intros u Hsome Htruthy. simpl. unfold or_null at 1 2.
      rewrite Hsome, Htruthy, Htruthy. reflexivity.
    + intros Hnull. simpl. rewrite Hnull. reflexivity.
Qed.

Lemma X5_recorded_userId_witness :
  exists optData,
    snd (middleware_record (demo_engine (Some (VStr "u1")) None [])
                           may_5_2017 (demo_ctx None) demo_next)
    = Submit optData None /\
    get optData "userId" = Some (VStr "u1").
Proof.
  eexists. split; [vm_compute; reflexivity|].
  apply (proj1 (X5_recorded_userId (demo_engine (Some (VStr "u1")) None [])
                  may_5_2017 (demo_ctx None) demo_next _ _ None eq_refl));
    reflexivity.
Defined.

(** ** The constructor *)

Lemma or_default_nonzero : forall x d, d <> 0 -> or_default x d <> 0.
Proof.
  intros [z|] d Hd; simpl; [|exact Hd].
  destruct (z =? 0) eqn:E; [exact Hd|now apply Z.eqb_neq in E].
Qed.

(** X6: an engine that the constructor returns has no threshold equal to 0
    and no empty buffer path, a configured 0 or empty string being taken as
    not configured; without an [uploadCondition] the thresholds are 1 file,
    10240 bytes and 10000 milliseconds, polled every 10000 milliseconds. *)
Theorem X6_constructed_thresholds : forall opts mk self,
  constructor opts mk = inr self ->
  (filesLimit self <> 0 /\ fileSizeLimit self <> 0 /\
   fileExpireTime self <> 0 /\ intervalTime self <> 0 /\
   localPath self <> "") /\
  (opt_uploadCondition opts = None ->
   filesLimit self = 1 /\ fileSizeLimit self = 10240 /\
   fileExpireTime self = 10000 /\ intervalTime self = 10000).
Proof.
  intros opts mk self H. unfold constructor in H.
  destruct (opt_getUserId opts); [|discriminate].
  destruct (opt_getResource opts); [|discriminate].
  destruct (opt_dbSaver opts) as [saver|]; [|discriminate].
  destruct (dbClient saver); [|discriminate].
  destruct mk; [|discriminate].
  injection H as <-. simpl. split.
  - pose proof (or_default_nonzero
                  (uc_filesLimit match opt_uploadCondition opts with
                                 | Some uc => uc
                                 | None => mkUploadCondition None None None None
                                 end) 1).
    pose proof (or_default_nonzero
                  (uc_fileSizeLimit match opt_uploadCondition opts with
                                    | Some uc => uc
                                    | None => mkUploadCondition None None None None
                                    end) 10).
    pose proof (or_default_nonzero
                  (uc_fileExpireTime match opt_uploadCondition opts with
                                     | Some uc => uc
                                     | None => mkUploadCondition None None None None
                                     end) 10).
    pose proof (or_default_nonzero
                  (uc_intervalTime match opt_uploadCondition opts with
                                   | Some uc => uc
                                   | None => mkUploadCondition None None None None
                                   end) 10).
    repeat split; try lia.
    destruct (opt_localPath opts) as [path|]; [|discriminate].
    destruct (String.eqb path "") eqn:E; [discriminate|].
    now apply String.eqb_neq in E.
  - intros ->. simpl. repeat split.
Qed.

Lemma X6_constructed_thresholds_witness :
  filesLimit (demo_engine None None []) = 1 /\
  fileSizeLimit (demo_engine None None []) = 10240 /\
  fileExpireTime (demo_engine None None []) = 10000 /\
  intervalTime (demo_engine None None []) = 10000.
Proof.
  apply (proj2 (X6_constructed_thresholds (demo_options None None []) true
                  (demo_engine None None [])
                  (demo_engine_constructed None None []))).
  reflexivity.
Defined.

(** ** The flush decision over time *)

Lemma checkFiles_later : forall self env env' st files,
  later env env' ->
  checkFiles self env files st = (Ok true, st) ->
  checkFiles self env' files st = (Ok true, st).
Proof.
  intros self env env' st files (_ & Hstat & Hclock).
  induction files as [|n rest IH]; simpl; [discriminate|].
  unfold bind, stat. rewrite Hstat.
  destruct (find_file (fs st) n) as [f|]; [|discriminate].
  destruct (stat_ok env n); [|discriminate].
  destruct (fileSizeLimit self <? size f); [reflexivity|].
  destruct (fileExpireTime self <=? clock env n - birthtime f) eqn:E.
  - intros _. apply Z.leb_le in E.
    assert (E' : (fileExpireTime self <=? clock env' n - birthtime f) = true)
      by (apply Z.leb_le; specialize (Hclock n); lia).
    now rewrite E'.
  - intros H. destruct (fileExpireTime self <=? clock env' n - birthtime f);
      [reflexivity|now apply IH].
Qed.

(** X9: a flush that is due stays due as time passes: when [checkStatus]
    answers [true], it answers [true] again for the same buffer at any later
    reading of the clock. *)
Theorem X9_flush_stays_due : forall self env env' st,
  later env env' ->
  checkStatus self env st = (Ok true, st) ->
  checkStatus self env' st = (Ok true, st).
Proof.
  intros self env env' st Hl H.
  pose proof Hl as (Hdir & _ & _).
  unfold checkStatus, bind, readdir in *. rewrite Hdir.
  destruct (readdir_ok env); [|discriminate].
  destruct (filesLimit self <? _); [reflexivity|].
  now apply (checkFiles_later self env env').
Qed.

Lemma X9_flush_stays_due_witness :
  checkStatus (demo_engine None None [])
              (mkEnv may_5_2017 (fun _ => getTime may_5_2017 + 120000)
                     true true (fun _ => true) (fun _ => true) (fun _ => []))
              (demo_state [("2017-5-5.log", three_records)])
  = (Ok true, demo_state [("2017-5-5.log", three_records)]).
Proof.
  apply (X9_flush_stays_due (demo_engine None None []) (demo_env [])).
  - unfold later; simpl. repeat split; intros; lia.
  - vm_compute. reflexivity.
Defined.

Lemma steps_succ : forall parse newDate self env n p st,
  steps parse newDate self env (S n) p st
  = let (p', st') := step parse newDate self env p st in
    steps parse newDate self env n p' st'.
Proof. reflexivity. Qed.

(** ** File names and days *)

Lemma all_digits_uint : forall d, all_digits (NilEmpty.string_of_uint d) = true.
Proof. induction d; simpl; auto. Qed.

Lemma all_digits_NilZero : forall d,
  all_digits (NilZero.string_of_uint d) = true.
Proof.
  intros d. destruct d; try reflexivity; simpl; apply all_digits_uint.
Qed.

Lemma take_digits_app : forall a c r,
  all_digits a = true -> is_digit c = false ->
  take_digits (a ++ String c r) = (a, String c r).
Proof.
  induction a as [|x a IH]; intros c r Ha Hc; simpl in *.
  - now rewrite Hc.
  - apply andb_true_iff in Ha as [Hx Ha]. rewrite Hx.
    now rewrite (IH c r Ha Hc).
Qed.

Lemma take_number_digits : forall x s c r,
  is_digit x = true -> all_digits s = true -> is_digit c = false ->
  take_number (String x s ++ String c r) = (String x s, String c r).
Proof.
  intros x s c r Hx Hs Hc. simpl.
  assert (Hneq : Ascii.eqb x "-" = false).
  { destruct (Ascii.eqb x "-") eqn:E; [|reflexivity].
    apply Ascii.eqb_eq in E. subst x. discriminate Hx. }
  rewrite Hneq, Hx. now rewrite take_digits_app.
Qed.

Lemma uint_string_nonempty : forall d,
  exists x s, NilZero.string_of_uint d = String x s /\
              is_digit x = true /\ all_digits s = true.
Proof.
  intros d. pose proof (all_digits_NilZero d) as H.
  destruct (NilZero.string_of_uint d) as [|x s] eqn:E.
  - destruct d; discriminate E.
  - simpl in H. apply andb_true_iff in H as [Hx Hs]. now exists x, s.
Qed.

(** The decimal form of an integer is read back whole from the front of a
    string in which a character that is no digit follows it. *)
Lemma take_number_Z : forall z c r,
  is_digit c = false ->
  take_number (Z_to_string z ++ String c r) = (Z_to_string z, String c r).
Proof.
  intros z c r Hc. unfold Z_to_string.
  destruct (Z.to_int z) as [d|d]; simpl NilZero.string_of_int.
  - destruct (uint_string_nonempty d) as (x & s & -> & Hx & Hs).
    now apply take_number_digits.
  - change ((String "-" (NilZero.string_of_uint d) ++ String c r)%string)
      with (String "-" (NilZero.string_of_uint d ++ String c r)).
    unfold take_number. simpl Ascii.eqb. cbv iota.
    now rewrite take_digits_app by (auto using all_digits_NilZero).
Qed.

Lemma to_int_proper : forall z,
  Z.to_int z <> Decimal.Pos Decimal.Nil /\ Z.to_int z <> Decimal.Neg Decimal.Nil.
Proof.
  intros [|p|p]; simpl; split; try discriminate;
    intros [= H]; now apply (DecimalPos.Unsigned.to_uint_nonnil p).
Qed.

Lemma Z_to_string_inj : forall a b, Z_to_string a = Z_to_string b -> a = b.
Proof.
  intros a b H. apply DecimalZ.to_int_inj. unfold Z_to_string in H.
  destruct (to_int_proper a) as [Ha1 Ha2].
  destruct (to_int_proper b) as [Hb1 Hb2].
  pose proof (NilZero.isi (Z.to_int a) Ha1 Ha2) as Ia.
  pose proof (NilZero.isi (Z.to_int b) Hb1 Hb2) as Ib.
  rewrite H in Ia. congruence.
Qed.

Lemma date_name_shape : forall d tail,
  dateFormat (Some d) ++ tail =
  Z_to_string (getFullYear d)
    ++ String "-" (Z_to_string (getMonth d + 1)
                     ++ String "-" (Z_to_string (getDate d) ++ tail)).
Proof.
  intros d tail. unfold dateFormat, join. simpl.
  repeat (rewrite append_assoc; simpl). reflexivity.
Qed.

(** X21: the name of the buffer file tells the day: [saveLocal] appends to
    the same file on two dates exactly when they have the same year, month
    and day of the month. *)
Theorem X21_one_file_per_day : forall d1 d2,
  dateFormat (Some d1) ++ ".log" = dateFormat (Some d2) ++ ".log" <->
  getFullYear d1 = getFullYear d2 /\ getMonth d1 = getMonth d2 /\
  getDate d1 = getDate d2.
Proof.
  intros d1 d2. rewrite !date_name_shape. split.
  - intros H.
    apply (f_equal take_number) in H.
    rewrite !take_number_Z in H by reflexivity.
    injection H as Hy H. apply Z_to_string_inj in Hy.
    apply (f_equal take_number) in H.
    rewrite !take_number_Z in H by reflexivity.
    injection H as Hm H. apply Z_to_string_inj in Hm.
    apply (f_equal take_number) in H.
    rewrite !take_number_Z in H by reflexivity.
    injection H as Hd. apply Z_to_string_inj in Hd.
    repeat split; auto. lia.
  - intros (-> & -> & ->). reflexivity.
Qed.

Lemma matches_Seq_Void : forall s r, matches (Seq Void r) s = false.
Proof. induction s as [|c s IH]; intros r; simpl; auto. Qed.

Lemma matches_Seq_Eps : forall s r, matches (Seq Eps r) s = matches r s.
Proof.
  intros [|c s] r; simpl; [reflexivity|].
  now rewrite matches_Alt, matches_Seq_Void.
Qed.

Lemma matches_Seq_Class : forall p r c s,
  matches (Seq (Class p) r) (String c s) = p c && matches r s.
Proof.
  intros p r c s. simpl. destruct (p c); simpl.
  - apply matches_Seq_Eps.
  - apply matches_Seq_Void.
Qed.

Lemma matches_Class_one : forall p c,
  matches (Class p) (String c "") = p c.
Proof. intros p c. simpl. destruct (p c); reflexivity. Qed.

Lemma lower_char_l : forall c,
  lower_char c = "l"%char ->
  ((code c =? code "l") || (code c =? code "L"))%N = true.
Proof.
  intros c. destruct c as [[] [] [] [] [] [] [] []]; vm_compute;
    intros H; try reflexivity; discriminate H.
Qed.

Lemma lower_char_o : forall c,
  lower_char c = "o"%char ->
  ((code c =? code "o") || (code c =? code "O"))%N = true.
Proof.
  intros c. destruct c as [[] [] [] [] [] [] [] []]; vm_compute;
    intros H; try reflexivity; discriminate H.
Qed.

Lemma lower_char_g : forall c,
  lower_char c = "g"%char ->
  ((code c =? code "g") || (code c =? code "G"))%N = true.
Proof.
  intros c. destruct c as [[] [] [] [] [] [] [] []]; vm_compute;
    intros H; try reflexivity; discriminate H.
Qed.

Lemma date_name_matches : forall d tail,
  calendar_date d -> 1000 <= getFullYear d <= 9999 ->
  matches ext_re tail = true ->
  name_matches (dateFormat (Some d) ++ tail) = true.
Proof.
  intros d tail [Hm Hd] Hy Htail. unfold name_matches, fileNamePattern.
  rewrite date_name_shape.
  apply matches_Seq; [now apply year_matches|].
  apply (matches_Seq "-"); [reflexivity|].
  apply matches_Seq; [now apply month_matches|].
  apply (matches_Seq "-"); [reflexivity|].
  apply matches_Seq; [now apply day_matches|].
  exact Htail.
Qed.

(** X22: the test of line 306 accepts more names than [saveLocal] writes:
    after a date with a four-digit year, any character that is not a line
    break may stand where the dot is, and the extension may be in either
    letter case. *)
Theorem X22_pattern_dot_and_case : forall d c ext,
  calendar_date d -> 1000 <= getFullYear d <= 9999 ->
  (code c =? 10)%N = false -> (code c =? 13)%N = false ->
  toLowerCase ext = "log" ->
  name_matches (dateFormat (Some d) ++ String c ext) = true.
Proof.
  intros d c ext Hc Hy H10 H13 Hext.
  apply date_name_matches; [assumption|assumption|].
  destruct ext as [|c1 [|c2 [|c3 [|c4 ext]]]]; try discriminate Hext.
  simpl in Hext. injection Hext as H1 H2 H3.
  unfold ext_re, dot, chr_i.
  rewrite !matches_Seq_Class, matches_Class_one.
  rewrite H10, H13, (lower_char_l c1 H1), (lower_char_o c2 H2),
    (lower_char_g c3 H3).
  reflexivity.
Qed.

Lemma X22_pattern_dot_and_case_witness :
  name_matches (dateFormat (Some may_5_2017) ++ String "_" "LoG") = true.
Proof.
  apply (X22_pattern_dot_and_case may_5_2017 "_" "LoG");
    try reflexivity.
  - unfold calendar_date; simpl; lia.
  - simpl; lia.
Defined.

(** ** [saveLocal] *)

Lemma find_file_append_same : forall dir name line created,
  find_file (append_to dir name line created) name
  = Some (match find_file dir name with
          | Some f => mkFile (birthtime f) (size f + length line + 1)
                             (lines f ++ [line])
          | None => mkFile created (length line + 1) [line]
          end).
Proof.
  induction dir as [|[n f] rest IH]; intros name line created; simpl.
  - now rewrite String.eqb_refl.
  - destruct (String.eqb n name) eqn:E; simpl; rewrite E; [reflexivity|].
    apply IH.
Qed.

Lemma find_file_append_other : forall dir name line created n,
  n <> name ->
  find_file (append_to dir name line created) n = find_file dir n.
Proof.
  induction dir as [|[m f] rest IH]; intros name line created n Hn; simpl.
  - destruct (String.eqb name n) eqn:E; [|reflexivity].
    apply String.eqb_eq in E. congruence.
  - destruct (String.eqb m name) eqn:E; simpl.
    + apply String.eqb_eq in E. subst m.
      destruct (String.eqb name n) eqn:E'; [|reflexivity].
      apply String.eqb_eq in E'. congruence.
    + destruct (String.eqb m n); [reflexivity|now apply IH].
Qed.

(** X23: a successful [saveLocal] adds the serialized record as the last
    line of the day's file and changes nothing else: the earlier lines and
    the birth time of that file are kept (a file that was not there is
    created with this one line), every other file and the traffic with the
    sink are as before. *)
Theorem X23_saveLocal_appends_one_line : forall env o st,
  append_ok env = true ->
  let name := dateFormat (Some (today env)) ++ ".log" in
  let line := JSON_stringify (VObj o) in
  let st' := snd (saveLocal env o st) in
  fst (saveLocal env o st) = Ok tt /\
  (exists f',
     find_file (fs st') name = Some f' /\
     lines f' = (match find_file (fs st) name with
                 | Some f => lines f
                 | None => []
                 end ++ [line])%list /\
     birthtime f' = match find_file (fs st) name with
                    | Some f => birthtime f
                    | None => getTime (today env)
                    end) /\
  (forall n, n <> name -> find_file (fs st') n = find_file (fs st) n) /\
  handed st' = handed st /\ stored st' = stored st.
Proof.
  intros env o st Hok. cbv zeta. unfold saveLocal, appendFile. rewrite Hok.
  simpl. split; [reflexivity|]. split; [|split].
  - eexists. split; [apply find_file_append_same|].
    destruct (find_file (fs st) _); split; reflexivity.
  - intros n Hn. now apply find_file_append_other.
  - split; reflexivity.
Qed.

Lemma X23_saveLocal_appends_one_line_witness :
  exists f',
    find_file (fs (snd (saveLocal quiet_env [("status", VNum 1)]
                          (demo_state [("2017-5-5.log", three_records)]))))
              "2017-5-5.log" = Some f' /\
    lines f' = (lines three_records
                  ++ [JSON_stringify (VObj [("status", VNum 1)])])%list /\
    birthtime f' = birthtime three_records.
Proof.
  destruct (X23_saveLocal_appends_one_line quiet_env [("status", VNum 1)]
              (demo_state [("2017-5-5.log", three_records)]) eq_refl)
    as (_ & H & _).
  exact H.
Defined.

Lemma one_line_app : forall a b,
  one_line (a ++ b) = one_line a && one_line b.
Proof.
  induction a as [|c a IH]; intros b; simpl; [reflexivity|].
  now rewrite IH, andb_assoc.
Qed.

Lemma one_line_escape_char : forall c, one_line (escape_char c) = true.
Proof.
  intros c. destruct c as [[] [] [] [] [] [] [] []]; reflexivity.
Qed.

Lemma one_line_escape : forall s, one_line (escape s) = true.
Proof.
  induction s as [|c s IH]; simpl; [reflexivity|].
  now rewrite one_line_app, one_line_escape_char, IH.
Qed.

Lemma one_line_quote : forall s, one_line (quote s) = true.
Proof.
  intros s. unfold quote. simpl.
  now rewrite one_line_app, one_line_escape.
Qed.

Lemma one_line_digits : forall s, all_digits s = true -> one_line s = true.
Proof.
  induction s as [|c s IH]; simpl; [reflexivity|].
  intros H. apply andb_true_iff in H as [Hc Hs]. rewrite (IH Hs).
  unfold is_digit in Hc. apply andb_true_iff in Hc as [Hlo Hhi].
  apply N.leb_le in Hlo.
  assert (E10 : (code c =? 10)%N = false) by (apply N.eqb_neq; lia).
  assert (E13 : (code c =? 13)%N = false) by (apply N.eqb_neq; lia).
  now rewrite E10, E13.
Qed.

Lemma one_line_Z : forall z, one_line (Z_to_string z) = true.
Proof.
  intros z. unfold Z_to_string.
  destruct (Z.to_int z) as [d|d]; simpl;
    apply one_line_digits, all_digits_NilZero.
Qed.

Lemma one_line_join : forall l,
  Forall (fun s => one_line s = true) l -> one_line (join "," l) = true.
Proof.
  unfold join. induction l as [|a l IH]; intros H; [reflexivity|].
  inversion H as [|? ? Ha Hl]; subst. simpl.
  destruct l as [|b l']; [exact Ha|].
  rewrite one_line_app, Ha. simpl. now apply IH.
Qed.

Lemma one_line_stringify : forall v, one_line (JSON_stringify v) = true.
Proof.
  fix IH 1. intros [|[|]|z|s|d|l|props].
  - reflexivity.
  - reflexivity.
  - reflexivity.
  - apply one_line_Z.
  - apply one_line_quote.
  - apply one_line_quote.
  - change (JSON_stringify (VArr l))
      with ("[" ++ join "," (map JSON_stringify l) ++ "]").
    rewrite !one_line_app, one_line_join; [reflexivity|].
    induction l as [|x l IHl]; constructor; [apply IH|exact IHl].
  - change (JSON_stringify (VObj props))
      with ("{" ++ join ","
                     (map (fun kv => match kv with
                                     | (k, w) => quote k ++ ":" ++ JSON_stringify w
                                     end) props)
                ++ "}").
    rewrite !one_line_app, one_line_join; [reflexivity|].
    induction props as [|[k w] props IHp]; constructor; [|exact IHp].
    rewrite !one_line_app, one_line_quote. simpl. apply IH.
Qed.

(** X24: the line that [saveLocal] writes for a record holds no line break,
    whatever the strings of the record contain, so that the reader of
    [local2Remote] emits a record as one line. *)
Theorem X24_record_is_one_line : forall env o st f,
  append_ok env = true ->
  find_file (fs (snd (saveLocal env o st)))
            (dateFormat (Some (today env)) ++ ".log") = Some f ->
  exists earlier line,
    lines f = (earlier ++ [line])%list /\
    line = JSON_stringify (VObj o) /\ one_line line = true.
Proof.
  intros env o st f Hok Hf.
  unfold saveLocal, appendFile in Hf. rewrite Hok in Hf. simpl in Hf.
  rewrite find_file_append_same in Hf. injection Hf as <-.
  destruct (find_file (fs st) _) as [g|]; simpl.
  - exists (lines g), (JSON_stringify (VObj o)).
    repeat split. apply one_line_stringify.
  - exists [], (JSON_stringify (VObj o)).
    repeat split. apply one_line_stringify.
Qed.

Lemma X24_record_is_one_line_witness :
  exists earlier line,
    lines (file_of (getTime may_5_2017)
             [JSON_stringify (VObj [("note", VStr (String (ascii_of_N 10) "x"))])])
    = (earlier ++ [line])%list /\
    line = JSON_stringify (VObj [("note", VStr (String (ascii_of_N 10) "x"))]) /\
    one_line line = true.
Proof.
  apply (X24_record_is_one_line quiet_env
           [("note", VStr (String (ascii_of_N 10) "x"))] (demo_state [])).
  - reflexivity.
  - vm_compute. reflexivity.
Defined.

(** ** The bodies as they are written *)








(** A handler that grows the request body in place gets 2048 characters
    into the record that is written, past the test of line 131. *)
Example handler_grows_request_body :
  exists optData,
    snd (middleware_record (demo_engine None None []) may_5_2017
                           (demo_ctx (Some (VObj [("n", VNum 7)]))) demo_next)
    = Submit optData None /\
    field_of optData "originRequest" "body" = Some (VObj [("n", VNum 7)]) /\
    field_of (written_record (demo_engine None None [])
                (demo_ctx (Some (VObj [("n", VNum 7)])))
                (fun _ => body_of_2048) optData)
             "originRequest" "body" = Some body_of_2048 /\
    length (JSON_stringify body_of_2048) = 2048.
Proof.
  eexists. split; [vm_compute; reflexivity|].
  repeat split; vm_compute; reflexivity.
Qed.

Section MoreEngineProperties.

Variable JSON_parse : string -> option value.
Variable newDate : option value -> Date.

Local Abbreviation upload_file := (upload_file JSON_parse newDate).
Local Abbreviation uploadFiles := (uploadFiles JSON_parse newDate).
Local Abbreviation local2Remote := (local2Remote JSON_parse newDate).
Local Abbreviation read_file := (read_file JSON_parse newDate).
Local Abbreviation on_event := (on_event JSON_parse newDate).
Local Abbreviation on_line := (on_line JSON_parse newDate).
Local Abbreviation step := (step JSON_parse newDate).
Local Abbreviation steps := (steps JSON_parse newDate).
Local Abbreviation submit := (submit JSON_parse newDate).
Local Abbreviation middleware_koa := (middleware_koa JSON_parse newDate).
Local Abbreviation record_of := (record_of JSON_parse newDate).
Local Abbreviation records_of := (records_of JSON_parse newDate).
Local Abbreviation line_ok := (line_ok JSON_parse newDate).
Local Abbreviation in_file_order := (in_file_order JSON_parse newDate).

(** ** The middleware and its caller *)

(** X7: a request that the filter declines is not logged: the state is left
    as it is, and the caller gets what the handler returned or threw, a
    falsy thrown value included. *)
Theorem X7_declined_request_untouched : forall self env now ctx next st,
  filter_declines self ctx = true ->
  middleware_koa self env now ctx next st
  = (handler_outcome (snd (next ctx)), st).
Proof.
  intros self env now ctx next st Hf.
  unfold middleware_koa, middleware_record.
  unfold filter_declines in Hf. rewrite Hf.
  destruct (next ctx) as [ctx' [e|]]; reflexivity.
Qed.

(** X8: for a request that the filter accepts, the middleware rethrows an
    error of the handler only when the record was not dropped by the strict
    check, and it never rethrows a falsy thrown value; when the record is
    dropped the state is left as it is. *)
Theorem X8_accepted_request_outcome : forall self env now ctx next st,
  filter_declines self ctx = false ->
  fst (middleware_koa self env now ctx next st)
  = match snd (next ctx) with
    | Some (Err s) =>
        if strict_outside (strictObj self) then Ok tt
        else Throw (Downstream (Err s))
    | _ => Ok tt
    end /\
  (strict_outside (strictObj self) = true ->
   snd (middleware_koa self env now ctx next st) = st).
Proof.
  intros self env now ctx next st Hf.
  destruct (middleware_record_accepted self now ctx next Hf)
    as (o & Hk & _ & _ & _ & _ & Hrec).
  unfold middleware_koa. rewrite Hrec. simpl snd.
  rewrite (strict_rejects_record _ o Hk).
  destruct (strict_outside (strictObj self)).
  - split; [|reflexivity]. simpl. destruct (snd (next ctx)) as [[|s]|]; reflexivity.
  - split; [|discriminate].
    destruct (snd (next ctx)) as [[|s]|]; reflexivity.
Qed.

(** ** [submit] as a composition of [saveLocal], [checkStatus] and
    [local2Remote] *)

Lemma set_onSubmitting_same : forall st,
  onSubmitting st = false -> set_onSubmitting false st = st.
Proof. intros [d h s o b] H; simpl in H; subst o; reflexivity. Qed.

Lemma saveLocal_after_save : forall env o st,
  append_ok env = true ->
  saveLocal env o st = (Ok tt, after_save env (Some o) st).
Proof.
  intros env o st Hok. unfold saveLocal, appendFile. now rewrite Hok.
Qed.

Lemma first_step : forall self env optData st,
  (optData = None \/ append_ok env = true) ->
  step self env (Start optData) st = (Saved, after_save env optData st).
Proof.
  intros self env [o|] st H; simpl; [|reflexivity].
  destruct H as [H|H]; [discriminate|].
  unfold saveLocal, appendFile. now rewrite H.
Qed.

Lemma submit_steps : forall self env optData st,
  snd (submit self env optData st)
  = snd (let (p1, s1) := step self env (Start optData) st in
         let (p2, s2) := step self env p1 s1 in
         let (p3, s3) := step self env p2 s2 in
         step self env p3 s3).
Proof.
  intros self env optData st. unfold submit. cbn [snd].
  change 4%nat with (S (S (S (S O)))).
  rewrite !steps_succ.
  destruct (step self env (Start optData) st) as [p1 s1].
  rewrite !steps_succ.
  destruct (step self env p1 s1) as [p2 s2].
  rewrite !steps_succ.
  destruct (step self env p2 s2) as [p3 s3].
  rewrite !steps_succ.
  destruct (step self env p3 s3) as [p4 s4]. reflexivity.
Qed.

(** X10: a call of [submit] whose flush decision is not [true] (it is
    [false], or [checkStatus] failed) does nothing but append its record:
    no file is read or deleted, nothing goes to the sink, and a call without
    a record changes nothing at all. *)
Theorem X10_submit_without_flush : forall self env optData st,
  onSubmitting st = false ->
  (optData = None \/ append_ok env = true) ->
  fst (checkStatus self env (after_save env optData st)) <> Ok true ->
  snd (submit self env optData st) = after_save env optData st.
Proof.
  intros self env optData st Hflag Hsave Hcheck.
  rewrite submit_steps, (first_step self env optData st Hsave).
  assert (Hflag1 : onSubmitting (after_save env optData st) = false)
    by (destruct optData; exact Hflag).
  simpl. rewrite Hflag1. unfold step.
  pose proof (checkStatus_reads_only self env (after_save env optData st)) as Hro.
  destruct (checkStatus self env (after_save env optData st))
    as [[[|]|e|] st1]; simpl in *; subst st1.
  - now elim Hcheck.
  - now apply set_onSubmitting_same.
  - now apply set_onSubmitting_same.
  - reflexivity.
Qed.

(** X11: when the append fails, [submit] ends there: the buffer and the
    sink are as before, whatever the thresholds say, and [onSubmitting] is
    cleared. *)
Theorem X11_submit_append_failure : forall self env o st,
  append_ok env = false ->
  snd (submit self env (Some o) st) = set_onSubmitting false st.
Proof.
  intros self env o st Hfail. unfold submit, steps, step.
  unfold saveLocal, appendFile. rewrite Hfail. reflexivity.
Qed.

(** X12: when the flush decision is [true], [submit] runs [local2Remote]
    once on the buffer as it is after the append, having set [submitting];
    the state it leaves is the one that drain leaves. *)
Theorem X12_submit_with_flush : forall self env optData st,
  onSubmitting st = false ->
  (optData = None \/ append_ok env = true) ->
  fst (checkStatus self env (after_save env optData st)) = Ok true ->
  snd (submit self env optData st)
  = snd (local2Remote env (set_submitting true (after_save env optData st))).
Proof.
  intros self env optData st Hflag Hsave Hcheck.
  rewrite submit_steps, (first_step self env optData st Hsave).
  assert (Hflag1 : onSubmitting (after_save env optData st) = false)
    by (destruct optData; exact Hflag).
  simpl. rewrite Hflag1. unfold step.
  pose proof (checkStatus_reads_only self env (after_save env optData st)) as Hro.
  destruct (checkStatus self env (after_save env optData st))
    as [[[|]|e|] st1]; simpl in *; subst st1; try discriminate.
  pose proof (local2Remote_keeps_flag JSON_parse newDate env
                (set_submitting true (after_save env optData st))) as Hk.
  simpl in Hk. rewrite Hflag1 in Hk.
  destruct (local2Remote env (set_submitting true (after_save env optData st)))
    as [[[]|e|] st2]; simpl in *;
    try (now apply set_onSubmitting_same); reflexivity.
Qed.

(** ** Reading one file, whatever arrives *)

Lemma records_of_cons : forall line rest,
  records_of (line :: rest)
  = (match record_of line with Some r => [r] | None => [] end
     ++ records_of rest)%list.
Proof. reflexivity. Qed.

Lemma in_file_order_on_event : forall f ev r,
  in_file_order f r -> in_file_order f (on_event ev r).
Proof.
  intros f ev [u p s a w e] [rest H]; simpl in H.
  destruct ev as [|k ok| |]; simpl.
  - destruct u as [|line more]; [now exists rest|].
    rewrite records_of_cons in H. unfold on_line, record_of in *.
    simpl. destruct (String.eqb line ""); [now exists rest|].
    destruct (JSON_parse line) as [o|]; [|now exists rest].
    destruct (revive newDate o) as [o'|]; [|now exists rest].
    exists rest. simpl. rewrite H. now rewrite <- !app_assoc.
  - unfold on_settled; simpl.
    destruct (nth_error p k); [|now exists rest].
    destruct (existsb (Nat.eqb k) s); [now exists rest|].
    destruct ok; now exists rest.
  - destruct u; [|now exists rest]. destruct e; now exists rest.
  - destruct e; [now exists rest|].
    exists (records_of u ++ rest)%list. simpl. exact H.
Qed.

Lemma in_file_order_fold : forall f evs r,
  in_file_order f r ->
  in_file_order f (fold_left (fun r ev => on_event ev r) evs r).
Proof.
  intros f evs. induction evs as [|ev evs IH]; intros r Hr; simpl;
    [assumption|].
  apply IH. now apply in_file_order_on_event.
Qed.

(** X14: whatever the order of arrival, the failures of the sink and the
    errors of the reader, the records that a drain hands to the sink for a
    file are an initial part of the records of that file, in file order:
    none is invented, reordered or handed over twice. *)
Theorem X14_records_handed_in_file_order : forall env st fileName f,
  find_file (fs st) fileName = Some f ->
  exists sent rest,
    handed (snd (upload_file env fileName st)) = (handed st ++ sent)%list /\
    records_of (lines f) = (sent ++ rest)%list.
Proof.
  intros env st fileName f Hf.
  assert (Hinit : in_file_order f (open_reader (Some f))).
  { exists []. simpl. now rewrite app_nil_r. }
  destruct (in_file_order_fold f (arrival env fileName) _ Hinit) as [rest H].
  fold (read_file (Some f) (arrival env fileName)) in H.
  exists (pushes (read_file (Some f) (arrival env fileName))).
  exists (records_of (unread (read_file (Some f) (arrival env fileName)))
            ++ rest)%list.
  split; [|exact H].
  unfold upload_file. rewrite Hf.
  destruct (awaited _); reflexivity.
Qed.

(** *** The promise and the acknowledgements *)

Lemma settled_stays : forall ev r,
  is_settled (awaited r) = true -> awaited (on_event ev r) = awaited r.
Proof.
  intros ev [u p s a w e] Hw; simpl in *.
  destruct w as [| |x]; [discriminate| |];
    (destruct ev as [|k ok| |]; simpl;
     [ destruct u as [|line rest]; [reflexivity|];
       unfold on_line; simpl;
       destruct (String.eqb line ""); [reflexivity|];
       destruct (JSON_parse line) as [o|]; [|reflexivity];
       destruct (revive newDate o); reflexivity
     | unfold on_settled; simpl;
       destruct (nth_error p k); [|reflexivity];
       destruct (existsb (Nat.eqb k) s); [reflexivity|];
       destruct ok; reflexivity
     | destruct u; [|reflexivity]; destruct e; reflexivity
     | destruct e; reflexivity ]).
Qed.

Lemma settled_stays_fold : forall evs r,
  is_settled (awaited r) = true ->
  awaited (fold_left (fun r ev => on_event ev r) evs r) = awaited r.
Proof.
  induction evs as [|ev evs IH]; intros r Hr; simpl; [reflexivity|].
  pose proof (settled_stays ev r Hr) as H1.
  rewrite IH; [exact H1|]. now rewrite H1.
Qed.

(** X15: the fate of a file is decided by the first settlement: once the
    promise awaited for the file is resolved or rejected, no later line,
    acknowledgement, rejection or read error changes it. *)
Theorem X15_first_settlement_decides : forall file evs later_evs,
  is_settled (awaited (read_file file evs)) = true ->
  awaited (read_file file (evs ++ later_evs)) = awaited (read_file file evs).
Proof.
  intros file evs later_evs H. unfold read_file in *.
  rewrite fold_left_app. now apply settled_stays_fold.
Qed.

Lemma acks_sound_on_event : forall ev r,
  acks_sound r -> acks_sound (on_event ev r).
Proof.
  intros ev [u p s a w e] (Hnd & Hlt & Hlen & Hincl); simpl in *.
  destruct ev as [|k ok| |]; simpl.
  - destruct u as [|line rest]; [now repeat split|].
    unfold on_line; simpl.
    destruct (String.eqb line ""); [now repeat split|].
    destruct (JSON_parse line) as [o|]; [|now repeat split].
    destruct (revive newDate o) as [o'|]; [|now repeat split].
    repeat split; simpl; auto.
    + intros k Hk. rewrite length_app. specialize (Hlt k Hk). simpl. lia.
    + intros x Hx. apply in_or_app. left. now apply Hincl.
  - unfold on_settled; simpl.
    destruct (nth_error p k) as [o|] eqn:Hnth; [|now repeat split].
    destruct (existsb (Nat.eqb k) s) eqn:Hex; [now repeat split|].
    assert (Hfresh : ~ In k s).
    { intros Hin. assert (existsb (Nat.eqb k) s = true).
      { apply existsb_exists. exists k. split; [assumption|apply Nat.eqb_refl]. }
      congruence. }
    assert (Hk : (k < List.length p)%nat)
      by (apply nth_error_Some; congruence).
    destruct ok; repeat split; simpl; auto.
    + now constructor.
    + intros j [<-|Hj]; auto.
    + rewrite length_app. simpl. lia.
    + intros x Hx. apply in_app_or in Hx as [Hx|[<-|[]]]; auto.
      now apply (nth_error_In p k).
    + now constructor.
    + intros j [<-|Hj]; auto.
  - destruct u; [|now repeat split]. destruct e; now repeat split.
  - destruct e; now repeat split.
Qed.

Lemma acks_sound_fold : forall evs r,
  acks_sound r -> acks_sound (fold_left (fun r ev => on_event ev r) evs r).
Proof.
  induction evs as [|ev evs IH]; intros r Hr; simpl; [assumption|].
  apply IH. now apply acks_sound_on_event.
Qed.

Lemma distinct_below : forall (l : list nat) n,
  NoDup l -> (forall k, In k l -> (k < n)%nat) -> (List.length l <= n)%nat.
Proof.
  intros l n Hnd Hlt. rewrite <- (length_seq n 0).
  apply NoDup_incl_length; [assumption|].
  intros k Hk. apply in_seq. specialize (Hlt k Hk). lia.
Qed.

(** X16: the store is never told more than the sink was given: every
    record acknowledged for a file was handed to the sink for that file, and
    there are no more acknowledgements than pushes, a push that settles
    twice counting once. *)
Theorem X16_acknowledged_were_pushed : forall file evs,
  incl (acked (read_file file evs)) (pushes (read_file file evs)) /\
  (List.length (acked (read_file file evs))
   <= List.length (pushes (read_file file evs)))%nat.
Proof.
  intros file evs.
  assert (Hinit : acks_sound (open_reader file)).
  { destruct file; simpl; repeat split; simpl; auto; try constructor;
      intros k []. }
  destruct (acks_sound_fold evs _ Hinit) as (Hnd & Hlt & Hlen & Hincl).
  fold (read_file file evs) in *. split; [assumption|].
  pose proof (distinct_below _ _ Hnd Hlt). lia.
Qed.

(** ** What a drain does to the buffer *)

Lemma uploadFiles_cons : forall env m rest st,
  uploadFiles env (m :: rest) st
  = if name_matches m then
      let r := read_file (find_file (fs st) m) (arrival env m) in
      let st1 := record_traffic r st in
      match awaited r with
      | Resolved =>
          if unlink_ok env m
          then uploadFiles env rest (with_fs st1 (remove_file (fs st) m))
          else (Throw (IOError "unlink"), st1)
      | Rejected e => (Throw e, st1)
      | Pending => (Hang, st1)
      end
    else (Ok tt, st).
Proof.
  intros env m rest st. simpl.
  destruct (name_matches m); [|reflexivity]. simpl.
  unfold bind, upload_file, unlink.
  destruct (awaited _); try reflexivity.
  destruct (unlink_ok env m); reflexivity.
Qed.

Lemma find_file_remove_some : forall dir m n f,
  find_file (remove_file dir m) n = Some f -> find_file dir n = Some f.
Proof.
  intros dir m n f H. destruct (String.eqb m n) eqn:E.
  - apply String.eqb_eq in E. subst. now rewrite find_file_remove_same in H.
  - apply String.eqb_neq in E.
    rewrite find_file_remove_other in H by congruence. exact H.
Qed.

Lemma uploadFiles_only_deletes : forall env files st,
  let st' := snd (uploadFiles env files st) in
  (forall n f, find_file (fs st') n = Some f -> find_file (fs st) n = Some f) /\
  (exists sent kept,
     handed st' = (handed st ++ sent)%list /\
     stored st' = (stored st ++ kept)%list) /\
  submitting st' = submitting st.
Proof.
  intros env files. induction files as [|m rest IH]; intros st.
  - simpl. repeat split; auto. exists [], []. now rewrite !app_nil_r.
  - cbv zeta. rewrite uploadFiles_cons.
    assert (Hsame : forall r,
      (forall n f, find_file (fs (record_traffic r st)) n = Some f ->
                   find_file (fs st) n = Some f) /\
      (exists sent kept,
         handed (record_traffic r st) = (handed st ++ sent)%list /\
         stored (record_traffic r st) = (stored st ++ kept)%list) /\
      submitting (record_traffic r st) = submitting st).
    { intros r. simpl. repeat split; auto. now exists (pushes r), (acked r). }
    destruct (name_matches m).
    + cbv zeta.
      set (r := read_file (find_file (fs st) m) (arrival env m)).
      destruct (awaited r); simpl; try apply Hsame.
      destruct (unlink_ok env m); simpl; try apply Hsame.
      specialize (IH (with_fs (record_traffic r st) (remove_file (fs st) m))).
      cbv zeta in IH. destruct IH as (Hfs & (sent & kept & Hh & Hs) & Hsub).
      simpl in *. repeat split.
      * intros n f Hn. apply (find_file_remove_some _ m). now apply Hfs.
      * exists (pushes r ++ sent)%list, (acked r ++ kept)%list.
        rewrite Hh, Hs. now rewrite !app_assoc.
      * exact Hsub.
    + simpl. repeat split; auto. exists [], []. now rewrite !app_nil_r.
Qed.

(** X17: a drain only takes files away and only adds to the traffic with
    the sink: a file found in the buffer after [local2Remote] was there
    before with the same birth time, size and lines, and what had been handed
    to the sink and stored before is still the beginning of what has been
    after. *)
Theorem X17_drain_only_deletes : forall env st,
  let st' := snd (local2Remote env st) in
  (forall n f, find_file (fs st') n = Some f -> find_file (fs st) n = Some f) /\
  (exists sent kept,
     handed st' = (handed st ++ sent)%list /\
     stored st' = (stored st ++ kept)%list).
Proof.
  intros env st. cbv zeta. unfold local2Remote, readdir.
  destruct (readdir_ok env).
  - destruct (uploadFiles_only_deletes env (map fst (fs st)) st)
      as (H1 & H2 & _). split; assumption.
  - simpl. split; auto. exists [], []. now rewrite !app_nil_r.
Qed.

Lemma uploadFiles_deleted : forall env files st n f,
  find_file (fs st) n = Some f ->
  find_file (fs (snd (uploadFiles env files st))) n = None ->
  name_matches n = true /\
  awaited (read_file (Some f) (arrival env n)) = Resolved /\
  unlink_ok env n = true.
Proof.
  intros env files. induction files as [|m rest IH]; intros st n f Hf Hgone.
  - simpl in Hgone. congruence.
  - rewrite uploadFiles_cons in Hgone.
    destruct (name_matches m) eqn:Hm; [|simpl in Hgone; congruence].
    cbv zeta in Hgone.
    destruct (awaited (read_file (find_file (fs st) m) (arrival env m)))
      eqn:Hw; simpl in Hgone; try congruence.
    destruct (unlink_ok env m) eqn:Hu; simpl in Hgone; try congruence.
    destruct (String.eqb m n) eqn:E.
    + apply String.eqb_eq in E. subst m. rewrite Hf in Hw. now repeat split.
    + apply String.eqb_neq in E.
      apply (IH _ n f) in Hgone; [assumption|]. simpl.
      rewrite find_file_remove_other by congruence. exact Hf.
Qed.

(** X18: [local2Remote] deletes a file only if its name matches the
    pattern, the promise awaited for it was resolved (by a blank line, an
    acknowledged push or the end of the file) and [unlink] succeeded. *)
Theorem X18_deleted_only_if_resolved : forall env st n f,
  find_file (fs st) n = Some f ->
  find_file (fs (snd (local2Remote env st))) n = None ->
  name_matches n = true /\
  awaited (read_file (Some f) (arrival env n)) = Resolved /\
  unlink_ok env n = true.
Proof.
  intros env st n f Hf Hgone. unfold local2Remote, readdir in Hgone.
  destruct (readdir_ok env); [|simpl in Hgone; congruence].
  now apply (uploadFiles_deleted env (map fst (fs st)) st).
Qed.

Lemma uploadFiles_unmatched : forall env files st n,
  name_matches n = false ->
  find_file (fs (snd (uploadFiles env files st))) n = find_file (fs st) n.
Proof.
  intros env files. induction files as [|m rest IH]; intros st n Hn.
  - reflexivity.
  - rewrite uploadFiles_cons.
    destruct (name_matches m) eqn:Hm; [|reflexivity].
    cbv zeta. destruct (awaited _); try reflexivity.
    destruct (unlink_ok env m); try reflexivity.
    rewrite IH by assumption. simpl.
    apply find_file_remove_other. intros ->. congruence.
Qed.

(** X19: a file whose name does not match the pattern is never deleted by
    a drain, wherever it stands in the listing. *)
Theorem X19_unmatched_file_stays : forall env st n,
  name_matches n = false ->
  find_file (fs (snd (local2Remote env st))) n = find_file (fs st) n.
Proof.
  intros env st n Hn. unfold local2Remote, readdir.
  destruct (readdir_ok env); [|reflexivity].
  now apply uploadFiles_unmatched.
Qed.

(** X20: a file whose drain failed is drained again from its first line.
    When the loop over a file does not end well (a rejection settled first,
    or the file could not be deleted), the file is still there unchanged;
    a later drain of it, with a sink that accepts, hands over every record
    of the file, those already handed over included, and deletes it. *)
Theorem X20_failed_file_is_sent_again : forall env env' st fileName f,
  find_file (fs st) fileName = Some f ->
  fst (uploadFiles env [fileName] st) <> Ok tt ->
  unlink_ok env' fileName = true ->
  forallb line_ok (lines f) = true ->
  forallb benign (arrival env' fileName) = true ->
  ended (read_file (Some f) (arrival env' fileName)) = true ->
  let st1 := snd (uploadFiles env [fileName] st) in
  fs st1 = fs st /\
  exists st2,
    uploadFiles env' [fileName] st1 = (Ok tt, st2) /\
    find_file (fs st2) fileName = None /\
    handed st2
    = (handed st ++ pushes (read_file (Some f) (arrival env fileName))
         ++ records_of (lines f))%list.
Proof.
  intros env env' st fileName f Hf Hfail Hunlink Hok Hev Hend. cbv zeta.
  destruct (read_file_tolerant JSON_parse newDate f _ Hok Hev Hend)
    as [Hp Hw].
  rewrite uploadFiles_cons in *. rewrite Hf in *.
  destruct (name_matches fileName) eqn:Hname; [|now elim Hfail].
  cbv zeta in *.
  set (r := read_file (Some f) (arrival env fileName)) in *.
  assert (Hkept : forall x : res unit,
    fs (snd (x, record_traffic r st)) = fs st /\
    exists st2,
      uploadFiles env' [fileName] (snd (x, record_traffic r st)) = (Ok tt, st2) /\
      find_file (fs st2) fileName = None /\
      handed st2 = (handed st ++ pushes r ++ records_of (lines f))%list).
  { intros x. split; [reflexivity|].
    change (snd (x, record_traffic r st)) with (record_traffic r st).
    rewrite uploadFiles_cons.
    change (fs (record_traffic r st)) with (fs st). rewrite Hf, Hname. cbv zeta.
    rewrite Hw, Hunlink. simpl. eexists. split; [reflexivity|]. simpl. split.
    - apply find_file_remove_same.
    - rewrite Hp. now rewrite app_assoc. }
  destruct (awaited r); try apply Hkept.
  destruct (unlink_ok env fileName); [|apply Hkept].
  simpl in Hfail. now elim Hfail.
Qed.

(** ** The guard of line 251 *)

(** X13: the check of line 251 never turns a call away.  In every
    interleaving of calls of [submit] that starts with [onSubmitting] false,
    as the constructor leaves it, the flag is false whenever a call reads
    it, so the call goes on to evaluate the thresholds. *)
Theorem X13_flag_check_never_returns : forall self env acts sys,
  onSubmitting (shared sys) = false ->
  let sys' := run JSON_parse newDate self env acts sys in
  onSubmitting (shared sys') = false /\
  step self env Saved (shared sys') = (Checking, shared sys').
Proof.
  intros self env acts sys Hsys. cbv zeta.
  pose proof (run_never_sets_flag JSON_parse newDate self env acts sys Hsys)
    as Hflag.
  split; [exact Hflag|]. simpl. now rewrite Hflag.
Qed.

(** ** Containment of errors *)

Lemma submit_is_async : forall self env optData st,
  snd (submit self env optData st)
  = snd (submit_async JSON_parse newDate self env optData st).
Proof.
  intros self env optData st. rewrite submit_steps.
  unfold submit_async, submit_try, bind.
  destruct optData as [o|]; simpl.
  - destruct (saveLocal env o st) as [[[]|e|] s1]; simpl; try reflexivity.
    destruct (onSubmitting s1); simpl; [reflexivity|].
    unfold step.
    destruct (checkStatus self env s1) as [[[|]|e|] s2]; simpl;
      try reflexivity.
    destruct (local2Remote env (set_submitting true s2)) as [[[]|e|] s3];
      reflexivity.
  - destruct (onSubmitting st); simpl; [reflexivity|].
    unfold step.
    destruct (checkStatus self env st) as [[[|]|e|] s2]; simpl;
      try reflexivity.
    destruct (local2Remote env (set_submitting true s2)) as [[[]|e|] s3];
      reflexivity.
Qed.

Lemma submit_async_never_throws : forall self env optData st e,
  fst (submit_async JSON_parse newDate self env optData st) <> Throw e.
Proof.
  intros self env optData st e. unfold submit_async.
  destruct (submit_try JSON_parse newDate self env optData st)
    as [[[|]|x|] s1]; discriminate.
Qed.

(** C8, amended: an error of the file system, of parsing or of the sink
    that arises in the [try] block of [submit] is taken by its [catch]: the
    async function never rejects, [submit] returns to its caller without an
    error, and the outcome of the middleware toward its caller is the same
    whatever the file system and the sink do.  At construction an error is
    raised exactly when a resolver or the database client is missing or the
    buffer directory cannot be created. *)
Theorem C8_runtime_errors_contained :
  (forall self env optData st,
     fst (submit self env optData st) = Ok tt /\
     snd (submit self env optData st)
     = snd (submit_async JSON_parse newDate self env optData st) /\
     forall e,
       fst (submit_async JSON_parse newDate self env optData st) <> Throw e) /\
  (forall self env1 env2 now ctx next st1 st2,
     fst (middleware_koa self env1 now ctx next st1)
     = fst (middleware_koa self env2 now ctx next st2)) /\
  (forall opts mkdirp_ok,
     (exists e, constructor opts mkdirp_ok = inl e) <->
     collaborators_given opts = false \/ mkdirp_ok = false).
Proof.
  split; [|split].
  - intros self env optData st. split; [reflexivity|]. split.
    + apply submit_is_async.
    + apply submit_async_never_throws.
  - intros self env1 env2 now ctx next st1 st2. unfold middleware_koa.
    destruct (snd (middleware_record self now ctx next))
      as [[e|]|err|optData [[|s]|]]; reflexivity.
  - intros opts mk. unfold collaborators_given, constructor.
    destruct (opt_getUserId opts);
      [|split; [now left|intros _; eexists; reflexivity]].
    destruct (opt_getResource opts);
      [|split; [now left|intros _; eexists; reflexivity]].
    destruct (opt_dbSaver opts) as [saver|];
      [|split; [now left|intros _; eexists; reflexivity]].
    destruct (dbClient saver);
      [|split; [now left|intros _; eexists; reflexivity]].
    destruct mk; split.
    + intros [e H]. discriminate H.
    + intros [H|H]; discriminate H.
    + now right.
    + intros _. eexists. reflexivity.
Qed.

End MoreEngineProperties.

Lemma X7_declined_request_untouched_witness :
  middleware_koa demo_parse demo_newDate
    (mkRestLog (fun _ => None) (fun _ => None) default_localPath
               (Some (fun u m => String.eqb m "post")) 2048 [] 1 10240 10000
               10000)
    quiet_env may_5_2017 (demo_ctx None) demo_next (demo_state [])
  = (Ok tt, demo_state []).
Proof.
  apply (X7_declined_request_untouched demo_parse demo_newDate).
  reflexivity.
Defined.

Lemma X8_accepted_request_outcome_witness :
  fst (middleware_koa demo_parse demo_newDate
         (demo_engine None None [("tenant", VBool true)]) quiet_env may_5_2017
         (demo_ctx None) (fun ctx => (ctx, Some (Err (Some 403))))
         (demo_state []))
  = Ok tt.
Proof.
  apply (proj1 (X8_accepted_request_outcome demo_parse demo_newDate
                  (demo_engine None None [("tenant", VBool true)]) quiet_env
                  may_5_2017 (demo_ctx None)
                  (fun ctx => (ctx, Some (Err (Some 403)))) (demo_state [])
                  eq_refl)).
Defined.

Lemma X10_submit_without_flush_witness :
  snd (submit demo_parse demo_newDate (demo_engine None None []) quiet_env
              (Some [("status", VNum 1)]) (demo_state []))
  = after_save quiet_env (Some [("status", VNum 1)]) (demo_state []).
Proof.
  apply (X10_submit_without_flush demo_parse demo_newDate).
  - reflexivity.
  - right. reflexivity.
  - vm_compute. discriminate.
Defined.

Lemma X11_submit_append_failure_witness :
  snd (submit demo_parse demo_newDate (demo_engine None None [])
              (mkEnv may_5_2017 (fun _ => getTime may_5_2017 + 60000)
                     false true (fun _ => true) (fun _ => true) (fun _ => []))
              (Some [("status", VNum 1)])
              (demo_state [("2017-5-4.log", three_records)]))
  = demo_state [("2017-5-4.log", three_records)].
Proof.
  apply (X11_submit_append_failure demo_parse demo_newDate).
  reflexivity.
Defined.

Lemma X12_submit_with_flush_witness :
  snd (submit demo_parse demo_newDate (demo_engine None None [])
              (demo_env all_pushes_accepted) None
              (demo_state [("2017-5-5.log", three_records_one_malformed)]))
  = mkState [] [demo_pushed "a"; demo_pushed "b"; demo_pushed "c"]
            [demo_pushed "a"; demo_pushed "b"; demo_pushed "c"] false true.
Proof.
  rewrite (X12_submit_with_flush demo_parse demo_newDate
             (demo_engine None None []) (demo_env all_pushes_accepted) None
             (demo_state [("2017-5-5.log", three_records_one_malformed)])
             eq_refl (or_introl eq_refl) eq_refl).
  vm_compute. reflexivity.
Defined.

Lemma X18_deleted_only_if_resolved_witness :
  name_matches "2017-5-5.log" = true /\
  awaited (read_file demo_parse demo_newDate (Some three_records)
                     second_push_rejected) = Resolved /\
  unlink_ok (demo_env second_push_rejected) "2017-5-5.log" = true.
Proof.
  apply (X18_deleted_only_if_resolved demo_parse demo_newDate
           (demo_env second_push_rejected)
           (demo_state [("2017-5-5.log", three_records)])
           "2017-5-5.log" three_records);
    vm_compute; reflexivity.
Defined.

Lemma X19_unmatched_file_stays_witness :
  find_file
    (fs (snd (local2Remote demo_parse demo_newDate
                (demo_env [Line; Line; Line; Settled 0 true; End])
                (demo_state [("2017-5-4.log", three_records);
                             ("2017-5-5.log", three_records);
                             ("notes.txt", three_records)]))))
    "notes.txt"
  = Some three_records.
Proof.
  apply (X19_unmatched_file_stays demo_parse demo_newDate
           (demo_env [Line; Line; Line; Settled 0 true; End])
           (demo_state [("2017-5-4.log", three_records);
                        ("2017-5-5.log", three_records);
                        ("notes.txt", three_records)])
           "notes.txt").
  vm_compute. reflexivity.
Defined.

Lemma X14_records_handed_in_file_order_witness :
  exists sent rest,
    handed (snd (upload_file demo_parse demo_newDate
                   (demo_env [Line; Line; ReadFail]) "2017-5-5.log"
                   (demo_state [("2017-5-5.log", three_records)])))
    = ([] ++ sent)%list /\
    records_of demo_parse demo_newDate (lines three_records)
    = (sent ++ rest)%list.
Proof.
  apply (X14_records_handed_in_file_order demo_parse demo_newDate
           (demo_env [Line; Line; ReadFail]) 
           (demo_state [("2017-5-5.log", three_records)])
           "2017-5-5.log" three_records).
  reflexivity.
Defined.

Lemma X15_first_settlement_decides_witness :
  awaited (read_file demo_parse demo_newDate (Some three_records)
             ([Line; Line; Settled 1 false] ++ [Settled 0 true; Line; End]))
  = Rejected SinkRejected.
Proof.
  rewrite (X15_first_settlement_decides demo_parse demo_newDate
             (Some three_records) [Line; Line; Settled 1 false]
             [Settled 0 true; Line; End] eq_refl).
  reflexivity.
Defined.

Lemma X20_failed_file_is_sent_again_witness :
  let st1 := snd (uploadFiles demo_parse demo_newDate
                    (demo_env [Line; Line; Line; Settled 1 false;
                               Settled 0 true; Settled 2 true; End])
                    ["2017-5-5.log"]
                    (demo_state [("2017-5-5.log", three_records)])) in
  fs st1 = [("2017-5-5.log", three_records)] /\
  exists st2,
    uploadFiles demo_parse demo_newDate
      (demo_env [Line; Line; Line; Settled 0 true; Settled 1 true;
                 Settled 2 true; End])
      ["2017-5-5.log"] st1 = (Ok tt, st2) /\
    find_file (fs st2) "2017-5-5.log" = None /\
    handed st2
    = [demo_pushed "a"; demo_pushed "b"; demo_pushed "c";
       demo_pushed "a"; demo_pushed "b"; demo_pushed "c"].
Proof.
  apply (X20_failed_file_is_sent_again demo_parse demo_newDate
           (demo_env [Line; Line; Line; Settled 1 false; Settled 0 true;
                      Settled 2 true; End])
           (demo_env [Line; Line; Line; Settled 0 true; Settled 1 true;
                      Settled 2 true; End])
           (demo_state [("2017-5-5.log", three_records)])
           "2017-5-5.log" three_records);
    try (vm_compute; reflexivity).
  vm_compute. discriminate.
Defined.

(** C8, as stated, fails: with both resolvers and the database client
    given, the constructor still raises when [mkdirpSync] (line 105) cannot
    create the buffer directory. *)
Lemma C8_mkdir_failure_raises :
  collaborators_given (demo_options None None []) = true /\
  constructor (demo_options None None []) false = inl MkdirError.
Proof. split; reflexivity. Qed.

Lemma C8_runtime_errors_contained_witness :
  fst (middleware_koa demo_parse demo_newDate (demo_engine None None [])
         failing_env may_5_2017 (demo_ctx None) demo_next (demo_state []))
  = fst (middleware_koa demo_parse demo_newDate (demo_engine None None [])
           (demo_env []) may_5_2017 (demo_ctx None) demo_next (demo_state [])).
Proof.
  apply (proj1 (proj2 (C8_runtime_errors_contained demo_parse demo_newDate))).
Defined.

(** In that environment the [try] block does throw, on the append, and the
    async function takes it: the state is as before. *)
Example append_error_is_caught :
  submit_try demo_parse demo_newDate (demo_engine None None []) failing_env
             (Some [("status", VNum 1)]) (demo_state [])
  = (Throw (IOError "appendFile"), demo_state []) /\
  submit_async demo_parse demo_newDate (demo_engine None None []) failing_env
               (Some [("status", VNum 1)]) (demo_state [])
  = (Ok tt, demo_state []).
Proof. split; vm_compute; reflexivity. Qed.

(** A rejection of the sink that settles first is thrown by the [try] block
    out of [local2Remote], and taken the same way. *)
Example sink_error_is_caught :
  let env := demo_env [Line; Line; Line; Settled 1 false; Settled 0 true;
                       Settled 2 true; End] in
  let st := demo_state [("2017-5-5.log", three_records)] in
  fst (submit_try demo_parse demo_newDate (demo_engine None None []) env None st)
  = Throw SinkRejected /\
  fst (submit_async demo_parse demo_newDate (demo_engine None None []) env
                    None st)
  = Ok tt.
Proof. split; vm_compute; reflexivity. Qed.

Lemma X13_flag_check_never_returns_witness :
  let sys' := run demo_parse demo_newDate (demo_engine None None []) (demo_env [])
                  [Call None; Resume 0; Resume 0; Resume 0; Call None; Resume 1]
                  (mkSystem [] (demo_state [("2017-5-4.log", three_records);
                                            ("2017-5-5.log", three_records)])) in
  onSubmitting (shared sys') = false /\
  step demo_parse demo_newDate (demo_engine None None []) (demo_env []) Saved
       (shared sys')
  = (Checking, shared sys').
Proof.
  apply (X13_flag_check_never_returns demo_parse demo_newDate).
  reflexivity.
Defined.
